(** * Book Haven: the scrape / recommend / analyze pipeline of [app.py]

    A shallow embedding of the pipeline functions of [src/app.py]
    ([scrape_books_to_scrape], [recommend_books], [analyze_sentiments] and the
    data flow of the [index] and [order] routes), and the properties the
    specification states about them.

    Conventions of the embedding.
    - A Python [float] is a primitive binary64 float ([PrimFloat.float]);
      [np.nan] is [nan].
    - A Python [str] is a [string] holding its UTF-8 bytes.  Every character
      test of the program ([0-9.]) concerns ASCII characters only, whose UTF-8
      encoding is one byte that occurs in no other character's encoding.
    - A call that may raise returns a [result]: [OK v] or [Raise e].
    - The outside world (the HTTP server, the HTML parser, scikit-learn's text
      analyzer and logarithm) enters as function arguments. *)

From Stdlib Require Import ZArith List String Ascii Bool Lia Floats.
From Stdlib Require Import Permutation Sorted.
Import ListNotations.

Local Open Scope Z_scope.
Local Open Scope list_scope.

Set Warnings "-inexact-float".

(* ================================================================== *)
(** * Python exceptions and fallible computations *)

Module Py.

(** The exception classes the pipeline can meet. *)
Inductive exn : Type :=
| ConnectionError   (* requests.exceptions.ConnectionError *)
| Timeout           (* requests.exceptions.Timeout *)
| ValueError
| AttributeError
| TypeError
| KeyError
| IndexError.

Inductive result (A : Type) : Type :=
| OK (a : A)
| Raise (e : exn).

Arguments OK {A} a.
Arguments Raise {A} e.

Definition bind {A B : Type} (c : result A) (k : A -> result B) : result B :=
  match c with
  | OK a => k a
  | Raise e => Raise e
  end.

Definition is_ok {A : Type} (c : result A) : bool :=
  match c with OK _ => true | Raise _ => false end.

(** [range(lo, hi)] *)
Definition range (lo hi : Z) : list Z :=
  map (fun i => lo + Z.of_nat i) (seq 0 (Z.to_nat (hi - lo))).

(** [l[i]] for [i >= 0]: an index past the end is an [IndexError]. *)
Definition subscript {A : Type} (l : list A) (i : nat) : result A :=
  match nth_error l i with
  | Some a => OK a
  | None => Raise IndexError
  end.

End Py.

Import Py.

Notation "x <- c ;; k" := (Py.bind c (fun x => k))
  (at level 61, c at next level, right associativity).

(* ================================================================== *)
(** * Binary64 helpers *)

Module F64.

Local Open Scope float_scope.

(** The double nearest to the integer [z] (ties to even): Python's
    [float(z)] and numpy's conversion of an [int64] to [float64]. *)
Definition of_Z (z : Z) : float :=
  SF2Prim (binary_normalize prec emax z 0 false).

(** The double nearest to [n / 10^k] for [n >= 0]: the value of a decimal
    literal with digits [n] and [k] digits after the point. *)
Definition of_decimal (n : Z) (k : nat) : float :=
  match n with
  | Zpos p =>
      SF2Prim (SFdiv prec emax (S754_finite false p 0)
                 (S754_finite false (Z.to_pos (10 ^ Z.of_nat k)) 0))
  | _ => 0
  end.

(** [sum(l)]: the items are added from left to right, starting from 0.
    (CPython 3.12 and later also carry a compensation term for the rounding
    errors of the additions; it can change the last bits of a finite total,
    and leaves a NaN total NaN.) *)
Definition sum (l : list float) : float := fold_left PrimFloat.add l 0.

(** Integer nearest to [m * 2^e], ties to even, for [e < 0]. *)
Definition round_half_even (m : Z) (e : Z) : Z :=
  let d := Z.pow 2 (- e) in
  let q := Z.div m d in
  let r := Z.modulo m d in
  match Z.compare (2 * r) d with
  | Lt => q
  | Gt => q + 1
  | Eq => if Z.even q then q else q + 1
  end.

(** [rint]: round to the nearest integral double, ties to even; zeros,
    infinities and NaN are returned unchanged, the sign is kept. *)
Definition rint (x : float) : float :=
  match Prim2SF x with
  | S754_finite s m e =>
      if (0 <=? e)%Z then x
      else
        let n := round_half_even (Zpos m) e in
        if (n =? 0)%Z then (if s then neg_zero else zero)
        else if s then - of_Z n else of_Z n
  | _ => x
  end.

End F64.

(* ================================================================== *)
(** * Data model *)

(** A rating is an integer of [rating_map] or [np.nan]. *)
Inductive rating_value : Type :=
| Rating (n : Z)
| RatingNaN.

(** The dict appended by [scrape_books_to_scrape]. *)
Record book : Type := Book {
  title : string;
  price : float;
  rating : rating_value;
  source : string;
  image : string
}.

(** [pd.isna] on a rating. *)
Definition isna (r : rating_value) : bool :=
  match r with RatingNaN => true | Rating _ => false end.

(* ================================================================== *)
(** * Fetcher / extractor: [scrape_books_to_scrape] *)

Module Scrape.

(** ** Price text *)

(** The characters kept by [re.sub(r'[^0-9.]', '', price_text)]. *)
Definition is_digit (c : ascii) : bool :=
  let n := nat_of_ascii c in (48 <=? n)%nat && (n <=? 57)%nat.

Definition is_period (c : ascii) : bool := Ascii.eqb c "."%char.

Definition kept (c : ascii) : bool := is_digit c || is_period c.

(** [re.sub(r'[^0-9.]', '', s)] *)
Fixpoint re_sub_non_numeric (s : string) : string :=
  match s with
  | EmptyString => EmptyString
  | String c rest =>
      if kept c then String c (re_sub_non_numeric rest)
      else re_sub_non_numeric rest
  end.

Definition digit_value (c : ascii) : Z := Z.of_nat (nat_of_ascii c) - 48.

(** The integer written by a string of digits, most significant first,
    continuing from [acc]; [None] at a character that is no digit. *)
Fixpoint digits_value (s : string) (acc : Z) : option Z :=
  match s with
  | EmptyString => Some acc
  | String c rest =>
      if is_digit c then digits_value rest (10 * acc + digit_value c)
      else None
  end.

(** Splits at the first period: the text before it and, when there is a
    period, the text after it. *)
Fixpoint split_period (s : string) : string * option string :=
  match s with
  | EmptyString => (EmptyString, None)
  | String c rest =>
      if is_period c then (EmptyString, Some rest)
      else let '(i, f) := split_period rest in (String c i, f)
  end.

(** [float(s)] on the strings the scraper passes, which hold digits and
    periods only: the accepted forms are [d+], [d+.d*] and [.d+], read as a
    decimal literal and rounded to the nearest double; anything else is a
    [ValueError]. *)
Definition py_float (s : string) : result float :=
  let '(int_part, frac) := split_period s in
  let frac_part := match frac with Some f => f | None => EmptyString end in
  if (String.length int_part + String.length frac_part =? 0)%nat
  then Raise ValueError
  else
    match digits_value (int_part ++ frac_part) 0 with
    | Some n => OK (F64.of_decimal n (String.length frac_part))
    | None => Raise ValueError
    end.

(** Lines 28-29: [cleaned = re.sub(...)],
    [price = float(cleaned) if cleaned else np.nan]. *)
Definition extract_price (price_text : string) : result float :=
  let cleaned := re_sub_non_numeric price_text in
  match cleaned with
  | EmptyString => OK nan
  | _ => py_float cleaned
  end.

(** ** Rating class *)

(** Lines 31-32: [rating_map.get(rating_class, np.nan)]. *)
Definition rating_map_get (rating_class : string) : rating_value :=
  if String.eqb rating_class "One" then Rating 1
  else if String.eqb rating_class "Two" then Rating 2
  else if String.eqb rating_class "Three" then Rating 3
  else if String.eqb rating_class "Four" then Rating 4
  else if String.eqb rating_class "Five" then Rating 5
  else RatingNaN.

(** ** Image URL *)

(** [s.replace('../', '')] *)
Fixpoint replace_dotdot_slash (s : string) : string :=
  match s with
  | String "." (String "." (String "/" rest)) => replace_dotdot_slash rest
  | String c rest => String c (replace_dotdot_slash rest)
  | EmptyString => EmptyString
  end.

(** ** One product entry *)

(** What the program reads from one [article.product_pod] node.  Each
    field is the outcome of the parser expression named beside it, which
    raises when the markup lacks the element or attribute. *)
Record article : Type := Article {
  h3_a_title : result string;           (* art.h3.a['title'] *)
  price_color_text : result string;     (* art.select_one('p.price_color').text.strip() *)
  star_rating_class : result (list string); (* art.select_one('p.star-rating')['class'] *)
  img_src : result string               (* art.find("img")['src'] *)
}.

(** Lines 26-34, the body of the inner loop. *)
Definition extract_book (art : article) : result book :=
  title <- h3_a_title art ;;
  price_text <- price_color_text art ;;
  price <- extract_price price_text ;;
  classes <- star_rating_class art ;;
  rating_class <- subscript classes 1 ;;
  let rating := rating_map_get rating_class in
  src <- img_src art ;;
  let image_url := ("http://books.toscrape.com/" ++ replace_dotdot_slash src)%string in
  OK (Book title price rating "BooksToScrape" image_url).

(** Lines 25-34, the inner loop: appends one record per entry to [books]. *)
Fixpoint extract_articles (arts : list article) (books : list book)
  : result (list book) :=
  match arts with
  | [] => OK books
  | art :: rest =>
      b <- extract_book art ;;
      extract_articles rest (books ++ [b])
  end.

(** ** Pages *)

(** The response of [requests.get]: its status code and the
    [article.product_pod] nodes that [soup.select] finds in its text. *)
Record response : Type := Response {
  status_code : Z;
  product_pods : list article
}.

(** [requests.get] on the URL of a page: a response, or the exception
    raised ([ConnectionError], [Timeout]). *)
Definition http := Z -> result response.

(** Lines 20-34, the outer loop over the pages still to fetch. *)
Fixpoint scrape_pages (get : http) (todo : list Z) (books : list book)
  : result (list book) :=
  match todo with
  | [] => OK books
  | page :: rest =>
      res <- get page ;;
      if status_code res =? 200 then
        books' <- extract_articles (product_pods res) books ;;
        scrape_pages get rest books'
      else scrape_pages get rest books
  end.

(** Lines 17-35. *)
Definition scrape_books_to_scrape (get : http) (pages : Z) : result (list book) :=
  scrape_pages get (range 1 (pages + 1)) [].

End Scrape.

(* ================================================================== *)
(** * Sequences: stable sorting, slices, [enumerate] *)

Module Seq.

Section Sort.
Context {A : Type} (before : A -> A -> bool).

(** Puts [x], which stood before every element of the sorted [l], at
    its place: after the elements that must precede it. *)
Fixpoint insert (x : A) (l : list A) : list A :=
  match l with
  | [] => [x]
  | y :: l' => if before x y then x :: l else y :: insert x l'
  end.

(** A stable sort: [before x y] tells that [x] may stay in front of a
    [y] that followed it in the input. *)
Definition sort (l : list A) : list A := fold_right insert [] l.
End Sort.

(** [list(enumerate(l))] *)
Definition enumerate {A : Type} (l : list A) : list (nat * A) :=
  combine (seq 0 (List.length l)) l.

(** A slice bound as Python reads it: negative bounds count from the
    end, and both are clipped to the sequence. *)
Definition slice_index (len i : Z) : Z :=
  if i <? 0 then Z.max (i + len) 0 else Z.min i len.

(** [l[lo:hi]] *)
Definition slice {A : Type} (l : list A) (lo hi : Z) : list A :=
  let len := Z.of_nat (List.length l) in
  let lo' := slice_index len lo in
  let hi' := slice_index len hi in
  firstn (Z.to_nat (hi' - lo')) (skipn (Z.to_nat lo') l).

(** A list comprehension whose element expression may raise. *)
Fixpoint mapM {A B : Type} (f : A -> result B) (l : list A) : result (list B) :=
  match l with
  | [] => OK []
  | a :: l' => b <- f a ;; bs <- mapM f l' ;; OK (b :: bs)
  end.

End Seq.

(* ================================================================== *)
(** * scikit-learn: cosine similarity of the rows of a matrix

    [sklearn.metrics.pairwise.cosine_similarity] as its documentation
    defines it, the dot product of the rows scaled to unit norm, computed
    in binary64. *)

Module Sklearn.

Local Open Scope float_scope.

Definition matrix := list (list float).

(** The sum of the products of the paired entries, accumulated from the
    first column on.  (The sparse product of scikit-learn skips the columns
    where an entry is absent; on the non-negative finite weights of a tf-idf
    matrix the skipped products are 0 and change no partial sum.) *)
Definition dot (u v : list float) : float :=
  fold_left (fun acc ab => acc + fst ab * snd ab) (combine u v) 0.

(** [normalize(X)] on one row: the row divided by its Euclidean norm; a
    row of norm 0 is left as it is. *)
Definition normalize_row (x : list float) : list float :=
  let norm := sqrt (dot x x) in
  if norm =? 0 then x else map (fun a => a / norm) x.

Definition normalize (X : matrix) : matrix := map normalize_row X.

(** [cosine_similarity(X, Y)]: both matrices are normalized by rows, and
    entry (i, j) is the dot product of row i of [X] and row j of [Y]. *)
Definition cosine_similarity (X Y : matrix) : matrix :=
  let Xn := normalize X in
  let Yn := normalize Y in
  map (fun x => map (fun y => dot x y) Yn) Xn.


End Sklearn.

(* ================================================================== *)
(** * Recommender: [recommend_books] *)

(** One dict of the list returned by [recommend_books]. *)
Record recommendation : Type := Recommendation {
  rec_title : string;
  recs : list string
}.

Module Recommend.

Import Sklearn.
Local Open Scope float_scope.

(** Line 45, the key and order of [sorted(..., key=lambda x: x[1],
    reverse=True)]: a pair stays in front of a later one unless its score
    is smaller.  On scores without NaN this is the order Python's stable
    sort gives: scores descending, equal scores in input order. *)
Definition score_before (x y : nat * float) : bool := negb (snd x <? snd y).

Definition sorted_by_score_desc (l : list (nat * float)) : list (nat * float) :=
  Seq.sort score_before l.

(** Lines 44-45: the (index, score) pairs kept for the title at [idx]. *)
Definition sim_scores (cosine_sim : matrix) (top_n : Z) (idx : nat)
  : result (list (nat * float)) :=
  row <- subscript cosine_sim idx ;;
  let sim_scores := Seq.enumerate row in
  OK (Seq.slice (sorted_by_score_desc sim_scores) 1 (top_n + 1)).

(** Lines 44-47, the body of the loop for the pair [(idx, title)]. *)
Definition recommend_entry (titles : list string) (cosine_sim : matrix)
           (top_n : Z) (it : nat * string) : result recommendation :=
  let '(idx, title) := it in
  scores <- sim_scores cosine_sim top_n idx ;;
  recs <- Seq.mapM (fun i => subscript titles (fst i)) scores ;;
  OK (Recommendation title recs).

Section Vectorizer.

(** The analyzer of [TfidfVectorizer(stop_words='english')]: the terms
    of a title (lower-cased words of two or more characters that are no
    English stop word), in order. *)
Variable analyzer : string -> list string.

(** The natural logarithm of numpy. *)
Variable ln : float -> float.

Definition contains (d : list string) (t : string) : bool :=
  existsb (String.eqb t) d.

(** The terms of all documents, each once, in ascending order: the
    columns of the matrix. *)
Definition vocabulary (docs : list (list string)) : list string :=
  Seq.sort String.leb (nodup string_dec (List.concat docs)).

(** Number of documents that contain [t]. *)
Definition document_frequency (docs : list (list string)) (t : string) : Z :=
  Z.of_nat (List.length (filter (fun d => contains d t) docs)).

(** The smoothed inverse document frequency,
    [log((1 + n) / (1 + df)) + 1]. *)
Definition idf (n df : Z) : float :=
  ln (F64.of_Z (1 + n) / F64.of_Z (1 + df)) + 1.

(** The weight of term [t] in document [d]: its count times its idf;
    a term the document lacks has no entry, which reads as 0. *)
Definition weight (docs : list (list string)) (d : list string) (t : string) : float :=
  let tf := Z.of_nat (count_occ string_dec d t) in
  if (tf =? 0)%Z then 0
  else F64.of_Z tf * idf (Z.of_nat (List.length docs)) (document_frequency docs t).

(** [TfidfVectorizer(stop_words='english').fit_transform(titles)] with
    the defaults of scikit-learn (smoothed idf, rows scaled to unit Euclidean
    norm): one row per title, one column per term.  When no title has a term
    the vocabulary is empty and scikit-learn raises [ValueError] ("empty
    vocabulary; perhaps the documents only contain stop words"). *)
Definition fit_transform (raw_documents : list string) : result matrix :=
  let docs := map analyzer raw_documents in
  let vocab := vocabulary docs in
  match vocab with
  | [] => Raise ValueError
  | _ => OK (map (fun d => normalize_row (map (weight docs d) vocab)) docs)
  end.

(** Lines 37-48. *)
Definition recommend_books (books : list book) (top_n : Z)
  : result (list recommendation) :=
  let titles := map title books in
  tfidf_matrix <- fit_transform titles ;;
  let cosine_sim := cosine_similarity tfidf_matrix tfidf_matrix in
  Seq.mapM (recommend_entry titles cosine_sim top_n) (Seq.enumerate titles).

End Vectorizer.

End Recommend.

(* ================================================================== *)
(** * Aggregator: [analyze_sentiments] *)

(** The dict returned by [analyze_sentiments]; [rating_distribution] lists
    the items of the dict in their order. *)
Record RatingStats : Type := Stats {
  average_rating : float;
  highest_rating : rating_value;
  lowest_rating : rating_value;
  count : Z;
  rating_distribution : list (Z * Z)
}.

Module Analyze.

Local Open Scope float_scope.

(** The values of a [pd.Series] built from a list of ratings none of
    which is NaN. *)
Definition series (l : list rating_value) : list Z :=
  flat_map (fun r => match r with Rating n => [n] | RatingNaN => [] end) l.

(** Line 51: the ratings kept by the comprehension, as a series. *)
Definition ratings_of (books : list book) : list Z :=
  series (map rating (filter (fun b => negb (isna (rating b))) books)).

(** [Series.mean()] on integers: the values are converted to doubles and
    added up in binary64, in the order of the series, and the sum is divided
    by the count as a double; NaN for an empty series.  (For eight values or
    more numpy adds in blocks; the order of the additions matters only when
    a partial sum is rounded.) *)
Definition mean (l : list Z) : float :=
  match l with
  | [] => nan
  | _ => F64.sum (map F64.of_Z l) / F64.of_Z (Z.of_nat (List.length l))
  end.

(** [round(x, 2)] on a numpy double: scale by 100, round to the nearest
    integer (ties to even), scale back. *)
Definition round2 (x : float) : float := F64.rint (x * 100) / 100.

(** [Series.max()] and [Series.min()]; NaN for an empty series. *)
Definition series_max (l : list Z) : rating_value :=
  match l with
  | [] => RatingNaN
  | x :: l' => Rating (fold_left Z.max l' x)
  end.

Definition series_min (l : list Z) : rating_value :=
  match l with
  | [] => RatingNaN
  | x :: l' => Rating (fold_left Z.min l' x)
  end.

(** [Series.value_counts()]: each distinct value with its number of
    occurrences, the most frequent first. *)
Definition value_counts (l : list Z) : list (Z * Z) :=
  Seq.sort (fun x y => (snd y <=? snd x)%Z)
    (map (fun v => (v, Z.of_nat (count_occ Z.eq_dec l v))) (nodup Z.eq_dec l)).

(** [.sort_index()]: by value, ascending. *)
Definition sort_index (s : list (Z * Z)) : list (Z * Z) :=
  Seq.sort (fun x y => (fst x <=? fst y)%Z) s.

(** Lines 50-58. *)
Definition analyze_sentiments (books : list book) : RatingStats :=
  let ratings := ratings_of books in
  {| average_rating := round2 (mean ratings);
     highest_rating := series_max ratings;
     lowest_rating := series_min ratings;
     count := Z.of_nat (List.length ratings);
     rating_distribution := sort_index (value_counts ratings) |}.

End Analyze.

(* ================================================================== *)
(** * The routes: [index] and [order] *)

Module Routes.

Import Scrape.

(** The pipeline calls a request makes, in order. *)
Inductive call : Type :=
| CallAnalyze (books : list book)
| CallRecommend (books : list book).

(** Line 63: [stats = analyze_sentiments(books) if books else {}];
    [None] is the empty dict. *)
Definition index_stats (books : list book) : option RatingStats * list call :=
  match books with
  | [] => (None, [])
  | _ :: _ => (Some (Analyze.analyze_sentiments books), [CallAnalyze books])
  end.

(** A dict from titles to lists, as its items in insertion order. *)
Fixpoint dict_set (d : list (string * list string)) (k : string) (v : list string)
  : list (string * list string) :=
  match d with
  | [] => [(k, v)]
  | (k', v') :: d' =>
      if String.eqb k' k then (k', v) :: d' else (k', v') :: dict_set d' k v
  end.

(** Line 65: [{rec['title']: rec['recs'] for rec in recommendations}]. *)
Definition title_to_recs_of (recommendations : list recommendation)
  : list (string * list string) :=
  fold_left (fun d r => dict_set d (rec_title r) (recs r)) recommendations [].

(** Lines 66-67: the keys and the values of the rating distribution. *)
Definition chart_labels_of (stats : option RatingStats) : list Z :=
  match stats with
  | Some s => map fst (rating_distribution s)
  | None => []
  end.

Definition chart_values_of (stats : option RatingStats) : list Z :=
  match stats with
  | Some s => map snd (rating_distribution s)
  | None => []
  end.

(** The values handed to the page template of [index]. *)
Record page : Type := Page {
  page_books : list book;
  page_stats : option RatingStats;
  title_to_recs : list (string * list string);
  chart_labels : list Z;
  chart_values : list Z
}.

(** Line 177: the total of a submitted order. *)
Definition order_total (books : list book) (selected_books : list string) : float :=
  F64.sum (map price
             (filter (fun b => existsb (String.eqb (title b)) selected_books) books)).

Inductive http_method : Type := GET | POST.

(** What [order] answers: the confirmation of a POST, with the total and
    the feedback text, or the form listing the books. *)
Inductive order_response : Type :=
| Confirmation (total : float) (feedback : option string)
| OrderForm (books : list book).

(** Lines 172-181. *)
Definition order (get : http) (method : http_method)
           (selected_books : list string) (feedback : option string)
  : result order_response :=
  books <- scrape_books_to_scrape get 2 ;;
  match method with
  | POST => OK (Confirmation (order_total books selected_books) feedback)
  | GET => OK (OrderForm books)
  end.

Section Index.

Variable analyzer : string -> list string.
Variable ln : float -> float.

(** Line 64: [recommendations = recommend_books(books) if books else []]. *)
Definition index_recommendations (books : list book)
  : result (list recommendation) * list call :=
  match books with
  | [] => (OK [], [])
  | _ :: _ => (Recommend.recommend_books analyzer ln books 5, [CallRecommend books])
  end.

(** Lines 60-67 and the arguments of the template: what the request is
    answered with, and the pipeline calls it made.  The calls made before
    an exception stay in the log. *)
Definition index (get : http) : result page * list call :=
  match scrape_books_to_scrape get 2 with
  | Raise e => (Raise e, [])
  | OK books =>
      let '(stats, log_stats) := index_stats books in
      let '(outcome, log_recs) := index_recommendations books in
      (recommendations <- outcome ;;
       OK (Page books stats (title_to_recs_of recommendations)
                (chart_labels_of stats) (chart_values_of stats)),
       log_stats ++ log_recs)
  end.

End Index.

End Routes.

(* ================================================================== *)
(** * Concrete stand-ins for the outside world, used in the examples *)

Module Sample.

Local Open Scope float_scope.

Definition is_upper (c : ascii) : bool :=
  let n := nat_of_ascii c in (65 <=? n)%nat && (n <=? 90)%nat.

Definition is_lower (c : ascii) : bool :=
  let n := nat_of_ascii c in (97 <=? n)%nat && (n <=? 122)%nat.

(** The ASCII characters matched by [\w]. *)
Definition is_word_char (c : ascii) : bool :=
  is_upper c || is_lower c || Scrape.is_digit c || Ascii.eqb c "_"%char.

Definition lower (c : ascii) : ascii :=
  if is_upper c then ascii_of_nat (nat_of_ascii c + 32) else c.

(** A run of word characters is a token when it has two characters or
    more. *)
Definition flush (cur : string) : list string :=
  if (2 <=? String.length cur)%nat then [cur] else [].

(** The lower-cased matches of [\b\w\w+\b] in an ASCII text; [cur] is the
    run being read. *)
Fixpoint tokens (s : string) (cur : string) : list string :=
  match s with
  | EmptyString => flush cur
  | String c rest =>
      if is_word_char c then tokens rest (cur ++ String (lower c) EmptyString)%string
      else flush cur ++ tokens rest EmptyString
  end.

(** Some of the English stop words. *)
Definition stop_words : list string :=
  ["a"; "an"; "and"; "in"; "is"; "it"; "of"; "the"; "to"]%string.

(** The analyzer on ASCII titles whose stop words are among [stop_words]. *)
Definition analyzer (s : string) : list string :=
  filter (fun t => negb (existsb (String.eqb t) stop_words)) (tokens s EmptyString).

(** The logarithm at the arguments the examples meet:
    [log(1) = 0] and [log(1.5)]. *)
Definition ln (x : float) : float :=
  if x =? 1 then 0
  else if x =? 1.5 then 0.4054651081081644
  else nan.

Definition a_book (t : string) (p : float) (r : rating_value) : book :=
  Book t p r "BooksToScrape" "http://books.toscrape.com/media/cache/cover.jpg".

End Sample.

(* ================================================================== *)
(** * Facts about sequences *)

Module SeqFacts.

Import Seq.

Section Sort.
Context {A : Type} (before : A -> A -> bool).

Lemma insert_perm (x : A) (l : list A) :
  Permutation (insert before x l) (x :: l).
Proof.
  induction l as [| y l IH]; simpl.
  - apply Permutation_refl.
  - destruct (before x y).
    + apply Permutation_refl.
    + eapply perm_trans; [apply perm_skip, IH | apply perm_swap].
Qed.

Lemma sort_perm (l : list A) : Permutation (sort before l) l.
Proof.
  induction l as [| x l IH]; simpl.
  - apply perm_nil.
  - eapply perm_trans; [apply insert_perm | apply perm_skip, IH].
Qed.

Lemma sort_In (l : list A) (x : A) : In x (sort before l) <-> In x l.
Proof.
  split; apply Permutation_in;
    [apply sort_perm | apply Permutation_sym, sort_perm].
Qed.

Lemma sort_nil_inv (l : list A) : sort before l = [] -> l = [].
Proof.
  intros H. apply Permutation_nil. rewrite <- H. apply sort_perm.
Qed.

(** With a total and transitive order the result is sorted. *)
Hypothesis before_total : forall x y, before x y = true \/ before y x = true.
Hypothesis before_trans :
  forall x y z, before x y = true -> before y z = true -> before x z = true.

Lemma insert_sorted (x : A) (l : list A) :
  StronglySorted (fun a b => before a b = true) l ->
  StronglySorted (fun a b => before a b = true) (insert before x l).
Proof.
  induction 1 as [| y l Hs IH Hy]; simpl.
  - constructor; [constructor | constructor].
  - destruct (before x y) eqn:E.
    + constructor.
      * constructor; assumption.
      * constructor; [assumption |].
        rewrite Forall_forall in *. intros z Hz.
        eapply before_trans; [exact E | auto].
    + constructor; [assumption |].
      rewrite Forall_forall in *. intros z Hz.
      apply (Permutation_in _ (insert_perm x l)) in Hz.
      destruct Hz as [<- | Hz]; [| auto].
      destruct (before_total x y) as [H | H]; congruence.
Qed.

Lemma sort_sorted (l : list A) :
  StronglySorted (fun a b => before a b = true) (sort before l).
Proof.
  induction l as [| x l IH]; simpl.
  - constructor.
  - apply insert_sorted, IH.
Qed.
End Sort.

Lemma enumerate_length {A : Type} (l : list A) :
  List.length (enumerate l) = List.length l.
Proof.
  unfold enumerate. rewrite length_combine, length_seq. apply Nat.min_id.
Qed.

Lemma combine_seq_In {A : Type} (l : list A) (k i : nat) (a : A) :
  In (i, a) (combine (seq k (List.length l)) l) ->
  (k <= i)%nat /\ nth_error l (i - k) = Some a.
Proof.
  revert k. induction l as [| x l IH]; simpl; intros k H; [easy |].
  destruct H as [H | H].
  - inversion H; subst. rewrite Nat.sub_diag. auto.
  - apply IH in H. destruct H as [Hle Hn]. split; [lia |].
    replace (i - k)%nat with (S (i - S k)) by lia. exact Hn.
Qed.

Lemma enumerate_In {A : Type} (l : list A) (i : nat) (a : A) :
  In (i, a) (enumerate l) -> nth_error l i = Some a.
Proof.
  intros H. apply combine_seq_In in H. now rewrite Nat.sub_0_r in H.
Qed.

Lemma combine_seq_nth {A : Type} (l : list A) (k i : nat) (a : A) :
  nth_error l i = Some a ->
  nth_error (combine (seq k (List.length l)) l) i = Some ((k + i)%nat, a).
Proof.
  revert k i. induction l as [| x l IH]; intros k [| i] H; simpl in *;
    try discriminate.
  - inversion H; subst. now rewrite Nat.add_0_r.
  - rewrite (IH (S k) i H). f_equal. f_equal. lia.
Qed.

Lemma enumerate_nth {A : Type} (l : list A) (i : nat) (a : A) :
  nth_error l i = Some a -> nth_error (enumerate l) i = Some (i, a).
Proof. apply (combine_seq_nth l 0). Qed.

Lemma subscript_ok {A : Type} (l : list A) (i : nat) (a : A) :
  subscript l i = OK a <-> nth_error l i = Some a.
Proof.
  unfold subscript.
  destruct (nth_error l i); split; intros H; inversion H; reflexivity.
Qed.

Lemma subscript_lt {A : Type} (l : list A) (i : nat) :
  (i < List.length l)%nat -> exists a, subscript l i = OK a.
Proof.
  intros H. unfold subscript.
  destruct (nth_error l i) eqn:E; [eauto |].
  apply nth_error_None in E. lia.
Qed.

Lemma firstn_incl {A : Type} (n : nat) (l : list A) (a : A) :
  In a (firstn n l) -> In a l.
Proof.
  intros H. rewrite <- (firstn_skipn n l). apply in_or_app. now left.
Qed.

Lemma skipn_incl {A : Type} (n : nat) (l : list A) (a : A) :
  In a (skipn n l) -> In a l.
Proof.
  intros H. rewrite <- (firstn_skipn n l). apply in_or_app. now right.
Qed.

Lemma slice_In {A : Type} (l : list A) (lo hi : Z) (a : A) :
  In a (slice l lo hi) -> In a l.
Proof.
  unfold slice. intros H.
  eapply skipn_incl, firstn_incl, H.
Qed.

Lemma mapM_Forall2 {A B : Type} (f : A -> result B) (l : list A) (out : list B) :
  mapM f l = OK out -> Forall2 (fun a b => f a = OK b) l out.
Proof.
  revert out. induction l as [| a l IH]; simpl; intros out H.
  - inversion H. constructor.
  - destruct (f a) eqn:Ea; simpl in H; [| discriminate].
    destruct (mapM f l) eqn:El; simpl in H; [| discriminate].
    inversion H; subst. constructor; auto.
Qed.

Lemma mapM_total {A B : Type} (f : A -> result B) (l : list A) :
  (forall a, In a l -> exists b, f a = OK b) -> exists out, mapM f l = OK out.
Proof.
  induction l as [| a l IH]; simpl; intros H.
  - eauto.
  - destruct (H a) as [b Eb]; [auto |]. rewrite Eb. simpl.
    destruct IH as [out Eo]; [auto |]. rewrite Eo. simpl. eauto.
Qed.

Lemma Forall2_nth_left {A B : Type} (R : A -> B -> Prop) (l : list A) (m : list B)
      (i : nat) (a : A) :
  Forall2 R l m -> nth_error l i = Some a ->
  exists b, nth_error m i = Some b /\ R a b.
Proof.
  intros H. revert i. induction H as [| x y l m Hxy H IH]; intros [| i] E;
    simpl in *; try discriminate.
  - inversion E; subst. eauto.
  - auto.
Qed.

Lemma Forall2_In_right {A B : Type} (R : A -> B -> Prop) (l : list A) (m : list B)
      (b : B) :
  Forall2 R l m -> In b m -> exists a, In a l /\ R a b.
Proof.
  induction 1 as [| x y l m Hxy H IH]; simpl; intros Hin; [easy |].
  destruct Hin as [<- | Hin]; [eauto |].
  destruct (IH Hin) as [a [Ha Hr]]. eauto.
Qed.

End SeqFacts.

(* ================================================================== *)
(** * The fetcher *)

Module ScrapeSpec.

Import Scrape.

(** The records of the entries of a page that extract. *)
Definition extracted (arts : list article) : list book :=
  flat_map (fun a => match extract_book a with OK b => [b] | Raise _ => [] end) arts.

(** What page [p] contributes: the records of its entries when the
    status is 200, nothing otherwise. *)
Definition page_records (get : http) (p : Z) : list book :=
  match get p with
  | OK res => if status_code res =? 200 then extracted (product_pods res) else []
  | Raise _ => []
  end.

(** The request for page [p] is answered, and with status 200 every
    entry of the page extracts. *)
Definition page_loads (get : http) (p : Z) : Prop :=
  exists res, get p = OK res /\
    (status_code res = 200 ->
     Forall (fun a => is_ok (extract_book a) = true) (product_pods res)).

Lemma In_range (lo hi p : Z) : In p (range lo hi) <-> lo <= p < hi.
Proof.
  unfold range. rewrite in_map_iff. split.
  - intros [i [<- Hi]]. apply in_seq in Hi. lia.
  - intros H. exists (Z.to_nat (p - lo)). split; [lia |].
    apply in_seq. lia.
Qed.

Lemma extract_articles_ok (arts : list article) (books : list book) :
  Forall (fun a => is_ok (extract_book a) = true) arts ->
  extract_articles arts books = OK (books ++ extracted arts).
Proof.
  intros H. revert books.
  induction H as [| a arts Ha _ IH]; intros books; simpl.
  - now rewrite app_nil_r.
  - unfold extracted. simpl. destruct (extract_book a) as [b |]; [| discriminate].
    simpl. rewrite IH. now rewrite <- app_assoc.
Qed.

Lemma scrape_pages_ok (get : http) (todo : list Z) (books : list book) :
  (forall p, In p todo -> page_loads get p) ->
  scrape_pages get todo books = OK (books ++ flat_map (page_records get) todo).
Proof.
  revert books. induction todo as [| p todo IH]; intros books H; simpl.
  - now rewrite app_nil_r.
  - destruct (H p (or_introl eq_refl)) as [res [Eres Hres]].
    unfold page_records at 1. rewrite Eres. simpl.
    destruct (status_code res =? 200) eqn:E.
    + apply Z.eqb_eq in E. rewrite (extract_articles_ok _ _ (Hres E)). simpl.
      rewrite IH by (intros q Hq; apply H; now right).
      now rewrite app_assoc.
    + apply IH. intros q Hq. apply H. now right.
Qed.

(** An exception of the request for a page, after pages that load,
    leaves [scrape_books_to_scrape] as it is. *)
Lemma scrape_pages_raise (get : http) (before after : list Z) (p : Z)
      (e : exn) (books : list book) :
  (forall q, In q before -> page_loads get q) ->
  get p = Raise e ->
  scrape_pages get (before ++ p :: after) books = Raise e.
Proof.
  revert books. induction before as [| q before IH]; intros books H E; simpl.
  - now rewrite E.
  - destruct (H q (or_introl eq_refl)) as [res [Eres Hres]].
    rewrite Eres. simpl.
    destruct (status_code res =? 200) eqn:E200.
    + apply Z.eqb_eq in E200. rewrite (extract_articles_ok _ _ (Hres E200)). simpl.
      apply IH; [intros r Hr; apply H; now right | exact E].
    + apply IH; [intros r Hr; apply H; now right | exact E].
Qed.

(** A server on which page 1 is missing and page 2 lists one book. *)
Definition sample_get : http :=
  fun p =>
    if p =? 1 then OK (Response 404 [])
    else OK (Response 200
               [Article (OK "Sapiens"%string) (OK "£54.23"%string)
                        (OK ["star-rating"; "Five"]%string)
                        (OK "../media/cache/be/a5/sapiens.jpg"%string)]).

(** The records scraped from it. *)
Definition sample_books : list book :=
  [Book "Sapiens" 54.23 (Rating 5) "BooksToScrape"
        "http://books.toscrape.com/media/cache/be/a5/sapiens.jpg"].

Example scrape_sample :
  scrape_books_to_scrape sample_get 2 = OK sample_books.
Proof. vm_compute. reflexivity. Qed.

(** A server that answers every request with status 404. *)
Definition not_found_get : http := fun _ => OK (Response 404 []).

(** C1 (as stated) fails: a connection error of the first request, or a
    timeout of the second one, reaches the caller. *)
Lemma scrape_request_error_propagates :
  scrape_books_to_scrape (fun _ => Raise ConnectionError) 1 = Raise ConnectionError
  /\ scrape_books_to_scrape
       (fun p => if p =? 1 then OK (Response 200 []) else Raise Timeout) 2
     = Raise Timeout.
Proof. split; reflexivity. Qed.

(** C1 (amended): for a page count of at least 1, when every request is
    answered and every entry of a page with status 200 extracts,
    [scrape_books_to_scrape] returns the records of the pages in ascending
    page order, and a page whose status is not 200 contributes no
    record. *)
Theorem scrape_returns_records_of_200_pages (get : http) (pages : Z) :
  1 <= pages ->
  (forall p, 1 <= p <= pages -> page_loads get p) ->
  scrape_books_to_scrape get pages
    = OK (flat_map (page_records get) (range 1 (pages + 1)))
  /\ (forall p res, get p = OK res -> status_code res <> 200 ->
                    page_records get p = []).
Proof.
  intros Hp H. split.
  - unfold scrape_books_to_scrape.
    rewrite scrape_pages_ok; [reflexivity |].
    intros p Hin. apply In_range in Hin. apply H. lia.
  - intros p res E Hs. unfold page_records. rewrite E.
    apply Z.eqb_neq in Hs. now rewrite Hs.
Qed.

Lemma scrape_returns_records_of_200_pages_witness :
  scrape_books_to_scrape sample_get 2
    = OK (flat_map (page_records sample_get) (range 1 (2 + 1)))
  /\ (forall p res, sample_get p = OK res -> status_code res <> 200 ->
                    page_records sample_get p = []).
Proof.
  apply (scrape_returns_records_of_200_pages sample_get 2); [lia |].
  intros p Hp. unfold page_loads, sample_get.
  destruct (p =? 1); eexists; (split; [reflexivity |]); intros _; simpl.
  - constructor.
  - constructor; [reflexivity | constructor].
Defined.

(** ** Price text *)

Lemma re_sub_filter (s : string) :
  list_ascii_of_string (re_sub_non_numeric s)
    = filter kept (list_ascii_of_string s).
Proof.
  induction s as [| c s IH]; simpl; [reflexivity |].
  destruct (kept c); simpl; now rewrite IH.
Qed.

Lemma re_sub_nothing_kept (s : string) :
  (forall c, In c (list_ascii_of_string s) -> kept c = false) ->
  re_sub_non_numeric s = EmptyString.
Proof.
  induction s as [| c s IH]; simpl; intros H; [reflexivity |].
  rewrite (H c) by now left. apply IH. intros d Hd. apply H. now right.
Qed.

(** Strings of digits. *)
Fixpoint all_digits (s : string) : bool :=
  match s with
  | EmptyString => true
  | String c rest => is_digit c && all_digits rest
  end.

Lemma digit_not_period (c : ascii) : is_digit c = true -> is_period c = false.
Proof.
  unfold is_period. destruct (Ascii.eqb_spec c "."%char) as [-> |]; [| reflexivity].
  discriminate.
Qed.

Lemma all_digits_app (a b : string) :
  all_digits (a ++ b) = all_digits a && all_digits b.
Proof.
  induction a as [| c a IH]; simpl; [reflexivity |].
  now rewrite IH, andb_assoc.
Qed.

Lemma digits_value_total (s : string) (acc : Z) :
  all_digits s = true -> exists n, digits_value s acc = Some n.
Proof.
  revert acc. induction s as [| c s IH]; simpl; intros acc H; [eauto |].
  apply andb_prop in H. destruct H as [Hc Hs]. rewrite Hc. now apply IH.
Qed.

Lemma split_period_point (i rest : string) :
  all_digits i = true ->
  split_period (i ++ String "." rest) = (i, Some rest).
Proof.
  induction i as [| c i IH]; simpl; intros H; [reflexivity |].
  apply andb_prop in H. destruct H as [Hc Hi].
  rewrite (digit_not_period c Hc), (IH Hi). reflexivity.
Qed.

Lemma split_period_digits (i : string) :
  all_digits i = true -> split_period i = (i, None).
Proof.
  induction i as [| c i IH]; simpl; intros H; [reflexivity |].
  apply andb_prop in H. destruct H as [Hc Hi].
  rewrite (digit_not_period c Hc), (IH Hi). reflexivity.
Qed.

Lemma length_append (a b : string) :
  String.length (a ++ b) = (String.length a + String.length b)%nat.
Proof. induction a as [| c a IH]; simpl; [reflexivity | now rewrite IH]. Qed.

(** [float] accepts every literal [d*.d*] with a digit, and reads it as the
    decimal number it writes. *)
Lemma py_float_point (i f : string) :
  all_digits i = true -> all_digits f = true ->
  (0 < String.length i + String.length f)%nat ->
  exists n, digits_value (i ++ f) 0 = Some n
            /\ py_float (i ++ String "." f) = OK (F64.of_decimal n (String.length f)).
Proof.
  intros Hi Hf Hlen.
  destruct (digits_value_total (i ++ f) 0) as [n En].
  { now rewrite all_digits_app, Hi, Hf. }
  exists n. split; [exact En |].
  unfold py_float. rewrite (split_period_point i f Hi).
  destruct (String.length i + String.length f =? 0)%nat eqn:E.
  - apply Nat.eqb_eq in E. lia.
  - now rewrite En.
Qed.

(** ... and every non-empty string of digits. *)
Lemma py_float_digits (i : string) :
  all_digits i = true -> (0 < String.length i)%nat ->
  exists n, digits_value i 0 = Some n /\ py_float i = OK (F64.of_decimal n 0).
Proof.
  intros Hi Hlen.
  destruct (digits_value_total i 0 Hi) as [n En].
  exists n. split; [exact En |].
  unfold py_float. rewrite (split_period_digits i Hi). simpl.
  rewrite Nat.add_0_r.
  destruct (String.length i =? 0)%nat eqn:E.
  - apply Nat.eqb_eq in E. lia.
  - assert (Happ : (i ++ "")%string = i).
    { clear. induction i as [| c i IH]; simpl; [reflexivity | now rewrite IH]. }
    now rewrite Happ, En.
Qed.

(** C8 (as stated) fails: a text that is not numeric but holds a period
    leaves a remainder that [float] rejects, and the [ValueError] is not
    turned into a missing value. *)
Lemma price_of_stray_period_raises :
  extract_price "." = Raise ValueError
  /\ extract_price "n.a." = Raise ValueError
  /\ extract_price "£1.234.56" = Raise ValueError.
Proof. repeat split; reflexivity. Qed.

(** C8 (amended): for every price text, extraction keeps exactly the
    digits and periods, in order; a non-empty remainder is parsed as a
    float, so that the text "£51.77" yields 51.77; an empty remainder, which
    is what a text without digit and period leaves, yields a missing value
    (NaN). *)
Theorem price_extraction (price_text : string) :
  list_ascii_of_string (re_sub_non_numeric price_text)
    = filter kept (list_ascii_of_string price_text)
  /\ (re_sub_non_numeric price_text <> EmptyString ->
      extract_price price_text = py_float (re_sub_non_numeric price_text))
  /\ extract_price "£51.77" = OK 51.77%float
  /\ (re_sub_non_numeric price_text = EmptyString ->
      extract_price price_text = OK nan)
  /\ ((forall c, In c (list_ascii_of_string price_text) -> kept c = false) ->
      extract_price price_text = OK nan).
Proof.
  assert (Hempty : re_sub_non_numeric price_text = EmptyString ->
                   extract_price price_text = OK nan).
  { intros E. unfold extract_price. now rewrite E. }
  split; [apply re_sub_filter |].
  split.
  { intros H. unfold extract_price.
    destruct (re_sub_non_numeric price_text); [contradiction | reflexivity]. }
  split; [reflexivity |].
  split; [exact Hempty |].
  intros H. apply Hempty, re_sub_nothing_kept, H.
Qed.

Lemma price_extraction_witness :
  extract_price "£51.77" = py_float "51.77"
  /\ extract_price "" = OK nan
  /\ extract_price "Out of stock" = OK nan.
Proof.
  split; [| split].
  - destruct (price_extraction "£51.77") as (_ & H & _).
    apply H. discriminate.
  - destruct (price_extraction "") as (_ & _ & _ & H & _).
    apply H. reflexivity.
  - destruct (price_extraction "Out of stock") as (_ & _ & _ & _ & H).
    apply H. intros c Hc. simpl in Hc.
    repeat (destruct Hc as [<- | Hc]; [reflexivity |]). contradiction.
Defined.

End ScrapeSpec.

(* ================================================================== *)
(** * Facts about binary64 arithmetic *)

Module F64Facts.

Local Open Scope float_scope.


Lemma is_nan_Prim2SF (x : float) : is_nan x = true -> Prim2SF x = S754_nan.
Proof. intros H. unfold Prim2SF. now rewrite H. Qed.

Lemma Prim2SF_nan_inv (x : float) : Prim2SF x = S754_nan -> x = nan.
Proof. intros H. rewrite <- (SF2Prim_Prim2SF x), H. reflexivity. Qed.

Lemma add_nan_l (x y : float) : is_nan x = true -> x + y = nan.
Proof.
  intros H. apply Prim2SF_nan_inv. rewrite add_spec, (is_nan_Prim2SF x H).
  reflexivity.
Qed.

Lemma add_nan_r (x y : float) : is_nan y = true -> x + y = nan.
Proof.
  intros H. apply Prim2SF_nan_inv. rewrite add_spec, (is_nan_Prim2SF y H).
  unfold SF64add, SFadd. now destruct (Prim2SF x).
Qed.

(** Once NaN, a left-to-right sum stays NaN. *)
Lemma fold_add_nan (l : list float) : fold_left PrimFloat.add l nan = nan.
Proof.
  induction l as [| x l IH]; simpl; [reflexivity |].
  rewrite (add_nan_l nan x) by reflexivity. exact IH.
Qed.

End F64Facts.

(* ================================================================== *)
(** * The similarity matrix *)

Module SklearnFacts.

Import Sklearn Seq SeqFacts.
Local Open Scope float_scope.















Lemma cosine_similarity_length (X : matrix) :
  List.length (cosine_similarity X X) = List.length X.
Proof. unfold cosine_similarity, normalize. now rewrite !length_map. Qed.

Lemma cosine_similarity_row_length (X : matrix) (i : nat) (row : list float) :
  nth_error (cosine_similarity X X) i = Some row ->
  List.length row = List.length X.
Proof.
  unfold cosine_similarity, normalize. rewrite nth_error_map.
  destruct (nth_error (map normalize_row X) i); simpl; intros H; inversion H.
  now rewrite !length_map.
Qed.

End SklearnFacts.

(* ================================================================== *)
(** * The recommender *)

Module RecommendSpec.

Import Sklearn Seq SeqFacts SklearnFacts Recommend.
Local Open Scope float_scope.

Section Vectorizer.

Variable analyzer : string -> list string.
Variable ln : float -> float.

Lemma vocabulary_nil (docs : list (list string)) :
  vocabulary docs = [] -> forall d, In d docs -> d = [].
Proof.
  unfold vocabulary. intros H d Hd. apply sort_nil_inv in H.
  destruct d as [| t d]; [reflexivity | exfalso].
  assert (Hin : In t (nodup string_dec (List.concat docs))).
  { apply nodup_In, in_concat. exists (t :: d). split; [exact Hd | now left]. }
  rewrite H in Hin. contradiction.
Qed.

Lemma fit_transform_length (titles : list string) (X : matrix) :
  fit_transform analyzer ln titles = OK X -> List.length X = List.length titles.
Proof.
  unfold fit_transform.
  destruct (vocabulary (map analyzer titles)); intros H; inversion H.
  now rewrite !length_map.
Qed.

Lemma fit_transform_total (titles : list string) :
  (exists t, In t titles /\ analyzer t <> []) ->
  exists X, fit_transform analyzer ln titles = OK X.
Proof.
  intros [t [Ht Hne]]. unfold fit_transform.
  destruct (vocabulary (map analyzer titles)) eqn:E; [| eauto].
  exfalso. apply Hne. apply (vocabulary_nil _ E). now apply in_map.
Qed.


(** ** The loop *)

Lemma sim_scores_index (cosine_sim : matrix) (top_n : Z) (idx : nat)
      (scores : list (nat * float)) (row : list float) :
  nth_error cosine_sim idx = Some row ->
  sim_scores cosine_sim top_n idx = OK scores ->
  forall i, In i scores -> (fst i < List.length row)%nat.
Proof.
  intros Hrow H [j s] Hin. unfold sim_scores in H.
  apply subscript_ok in Hrow. rewrite Hrow in H. simpl in H.
  inversion H; subst scores; clear H.
  apply slice_In in Hin. unfold sorted_by_score_desc in Hin.
  apply sort_In in Hin. apply enumerate_In in Hin. simpl.
  apply nth_error_Some. congruence.
Qed.

Lemma recommend_entry_total (titles : list string) (X : matrix) (top_n : Z)
      (it : nat * string) :
  List.length X = List.length titles ->
  In it (enumerate titles) ->
  exists e, recommend_entry titles (cosine_similarity X X) top_n it = OK e.
Proof.
  intros Hlen Hin. destruct it as [idx t]. apply enumerate_In in Hin.
  assert (Hidx : (idx < List.length (cosine_similarity X X))%nat).
  { rewrite cosine_similarity_length, Hlen. apply nth_error_Some. congruence. }
  destruct (subscript_lt _ _ Hidx) as [row Erow].
  unfold recommend_entry.
  destruct (sim_scores (cosine_similarity X X) top_n idx) as [scores |] eqn:Es;
    [| unfold sim_scores in Es; rewrite Erow in Es; discriminate].
  simpl.
  destruct (mapM_total (fun i => subscript titles (fst i)) scores) as [rs Ers].
  { intros i Hi. apply subscript_lt.
    apply subscript_ok in Erow.
    pose proof (sim_scores_index _ _ _ _ _ Erow Es i Hi) as Hlt.
    rewrite (cosine_similarity_row_length _ _ _ Erow), Hlen in Hlt. exact Hlt. }
  rewrite Ers. simpl. eauto.
Qed.

Lemma recommend_entry_title (titles : list string) (M : matrix) (top_n : Z)
      (idx : nat) (t : string) (e : recommendation) :
  recommend_entry titles M top_n (idx, t) = OK e ->
  rec_title e = t /\ forall r, In r (recs e) -> In r titles.
Proof.
  unfold recommend_entry. intros H.
  destruct (sim_scores M top_n idx) as [scores |]; simpl in H; [| discriminate].
  destruct (mapM (fun i => subscript titles (fst i)) scores) as [rs |] eqn:Ers;
    simpl in H; [| discriminate].
  inversion H; subst e; clear H. simpl. split; [reflexivity |].
  intros r Hr. apply mapM_Forall2 in Ers.
  destruct (Forall2_In_right _ _ _ _ Ers Hr) as [i [_ Hi]].
  apply subscript_ok in Hi. eapply nth_error_In, Hi.
Qed.

(** ** The claims on [recommend_books] *)

(** C2 (amended): on the empty sequence [recommend_books] itself raises
    (the vectorizer rejects an empty vocabulary); it is the [index] route
    that yields the empty sequence for it, without calling
    [recommend_books]. *)
Theorem recommend_books_empty_input (top_n : Z) :
  recommend_books analyzer ln [] top_n = Raise ValueError
  /\ Routes.index_recommendations analyzer ln [] = (OK [], []).
Proof. split; reflexivity. Qed.


(** C10 (amended): when some title has a term, [recommend_books] returns
    one entry per record, entry i carrying the title of record i, and every
    recommended title is the title of a record of the input. *)
Theorem recommend_books_output (books : list book) (top_n : Z) :
  (exists b, In b books /\ analyzer (title b) <> []) ->
  exists out,
    recommend_books analyzer ln books top_n = OK out
    /\ List.length out = List.length books
    /\ (forall i b, nth_error books i = Some b ->
          exists e, nth_error out i = Some e /\ rec_title e = title b)
    /\ (forall e t, In e out -> In t (recs e) ->
          exists b, In b books /\ title b = t).
Proof.
  intros [b0 [Hb0 Hne]].
  destruct (fit_transform_total (map title books)) as [X EX].
  { exists (title b0). split; [now apply in_map | exact Hne]. }
  pose proof (fit_transform_length _ _ EX) as Hlen.
  destruct (mapM_total
              (recommend_entry (map title books) (cosine_similarity X X) top_n)
              (enumerate (map title books))) as [out Eout].
  { intros it Hit. now apply recommend_entry_total. }
  exists out. unfold recommend_books. rewrite EX. simpl.
  split; [exact Eout |].
  apply mapM_Forall2 in Eout.
  split; [| split].
  - rewrite <- (Forall2_length Eout), enumerate_length. apply length_map.
  - intros i b Hb.
    assert (Ht : nth_error (enumerate (map title books)) i = Some (i, title b)).
    { apply enumerate_nth. now apply map_nth_error. }
    destruct (Forall2_nth_left _ _ _ _ _ Eout Ht) as [e [He Hr]].
    exists e. split; [exact He |].
    now apply recommend_entry_title in Hr.
  - intros e t He Ht.
    destruct (Forall2_In_right _ _ _ _ Eout He) as [[idx u] [_ Hr]].
    apply recommend_entry_title in Hr. destruct Hr as [_ Hr].
    apply Hr in Ht. apply in_map_iff in Ht.
    destruct Ht as [b [Eb Hb]]. eauto.
Qed.

End Vectorizer.

(** ** Examples *)

Definition sapiens : book := Sample.a_book "Sapiens" 54.23 (Rating 5).
Definition it_novel : book := Sample.a_book "It" 25.01 (Rating 3).

(** C2 (as stated) fails: called on the empty sequence, [recommend_books]
    raises. *)
Lemma recommend_books_empty_raises :
  recommend_books Sample.analyzer Sample.ln [] 5 = Raise ValueError.
Proof. reflexivity. Qed.

(** C3, the failing input: of two records with the same title, the second
    one gets itself as its recommendation.  Both scores of its row are
    equal, the stable sort leaves index 0 in front, and the slice [1:6]
    drops index 0 and keeps index 1, the record itself. *)
Theorem duplicate_title_recommends_itself :
  fit_transform Sample.analyzer Sample.ln ["Sapiens"; "Sapiens"]%string
    = OK [[1]; [1]]
  /\ cosine_similarity [[1]; [1]] [[1]; [1]] = [[1; 1]; [1; 1]]
  /\ sim_scores [[1; 1]; [1; 1]] 5 1 = OK [(1%nat, 1)]
  /\ recommend_books Sample.analyzer Sample.ln [sapiens; sapiens] 5
     = OK [Recommendation "Sapiens" ["Sapiens"%string];
           Recommendation "Sapiens" ["Sapiens"%string]].
Proof. vm_compute. repeat split; reflexivity. Qed.




(** C10 (as stated) fails: a record whose title holds stop words only
    leaves the vocabulary empty, and there is no output. *)
Lemma recommend_books_stop_word_title_raises :
  recommend_books Sample.analyzer Sample.ln [it_novel] 5 = Raise ValueError.
Proof. reflexivity. Qed.

Lemma recommend_books_output_witness :
  exists out,
    recommend_books Sample.analyzer Sample.ln [sapiens; it_novel] 5 = OK out
    /\ List.length out = List.length [sapiens; it_novel]
    /\ (forall i b, nth_error [sapiens; it_novel] i = Some b ->
          exists e, nth_error out i = Some e /\ rec_title e = title b)
    /\ (forall e t, In e out -> In t (recs e) ->
          exists b, In b [sapiens; it_novel] /\ title b = t).
Proof.
  apply (recommend_books_output Sample.analyzer Sample.ln [sapiens; it_novel] 5).
  exists sapiens. split; [now left |]. discriminate.
Defined.

End RecommendSpec.

(* ================================================================== *)
(** * The aggregator *)

Module AnalyzeSpec.

Import Seq SeqFacts Analyze.
Local Open Scope float_scope.

(** The ratings that are present, in the order of the records. *)
Definition present_ratings (books : list book) : list Z :=
  flat_map (fun b => match rating b with Rating n => [n] | RatingNaN => [] end) books.

(** The arithmetic sum of a sequence of integers. *)
Definition sum_of (l : list Z) : Z := fold_right Z.add 0%Z l.

Lemma ratings_of_present (books : list book) :
  ratings_of books = present_ratings books.
Proof.
  unfold ratings_of, present_ratings, series.
  induction books as [| b books IH]; simpl; [reflexivity |].
  destruct (rating b) eqn:E; simpl; rewrite ?E; simpl; now rewrite IH.
Qed.

Lemma present_ratings_In (books : list book) (n : Z) :
  In n (present_ratings books) <-> exists b, In b books /\ rating b = Rating n.
Proof.
  unfold present_ratings. rewrite in_flat_map. split.
  - intros [b [Hb Hn]]. exists b. split; [exact Hb |].
    destruct (rating b); simpl in Hn; [| contradiction].
    destruct Hn as [-> | []]. reflexivity.
  - intros [b [Hb E]]. exists b. split; [exact Hb |]. rewrite E. now left.
Qed.

Lemma fold_max_spec (l : list Z) (x : Z) :
  In (fold_left Z.max l x) (x :: l)
  /\ forall y, In y (x :: l) -> (y <= fold_left Z.max l x)%Z.
Proof.
  revert x. induction l as [| a l IH]; intros x; simpl.
  - split; [now left | intros y [<- | []]; lia].
  - destruct (IH (Z.max x a)) as [Hin Hge]. split.
    + destruct Hin as [E | Hin]; [| now right; right].
      rewrite <- E. destruct (Z.max_spec x a) as [[_ ->] | [_ ->]]; auto.
    + intros y Hy.
      assert (Hm : (y <= Z.max x a)%Z \/ In y l).
      { destruct Hy as [<- | [<- | Hy]]; [left; lia | left; lia | now right]. }
      destruct Hm as [Hm | Hm].
      * specialize (Hge (Z.max x a) (or_introl eq_refl)). lia.
      * apply Hge. now right.
Qed.

Lemma fold_min_spec (l : list Z) (x : Z) :
  In (fold_left Z.min l x) (x :: l)
  /\ forall y, In y (x :: l) -> (fold_left Z.min l x <= y)%Z.
Proof.
  revert x. induction l as [| a l IH]; intros x; simpl.
  - split; [now left | intros y [<- | []]; lia].
  - destruct (IH (Z.min x a)) as [Hin Hle]. split.
    + destruct Hin as [E | Hin]; [| now right; right].
      rewrite <- E. destruct (Z.min_spec x a) as [[_ ->] | [_ ->]]; auto.
    + intros y Hy.
      assert (Hm : (Z.min x a <= y)%Z \/ In y l).
      { destruct Hy as [<- | [<- | Hy]]; [left; lia | left; lia | now right]. }
      destruct Hm as [Hm | Hm].
      * specialize (Hle (Z.min x a) (or_introl eq_refl)). lia.
      * apply Hle. now right.
Qed.

(** ** The distribution *)

Definition counted (l : list Z) : list (Z * Z) :=
  map (fun v => (v, Z.of_nat (count_occ Z.eq_dec l v))) (nodup Z.eq_dec l).

Lemma distribution_perm (l : list Z) :
  Permutation (sort_index (value_counts l)) (counted l).
Proof.
  unfold sort_index, value_counts.
  eapply perm_trans; apply sort_perm.
Qed.

Lemma distribution_In (l : list Z) (r c : Z) :
  In (r, c) (sort_index (value_counts l))
  <-> In r l /\ c = Z.of_nat (count_occ Z.eq_dec l r).
Proof.
  split.
  - intros H. apply (Permutation_in _ (distribution_perm l)) in H.
    unfold counted in H. apply in_map_iff in H. destruct H as [v [E Hv]].
    inversion E; subst. split; [now apply nodup_In in Hv | reflexivity].
  - intros [Hr ->].
    apply (Permutation_in _ (Permutation_sym (distribution_perm l))).
    unfold counted. apply in_map_iff. exists r. split; [reflexivity |].
    now apply nodup_In.
Qed.

Lemma le_sorted_NoDup_lt (l : list Z) :
  StronglySorted Z.le l -> NoDup l -> StronglySorted Z.lt l.
Proof.
  induction 1 as [| x l Hs IH Hx]; intros Hnd; constructor.
  - apply IH. now inversion Hnd.
  - inversion Hnd as [| ? ? Hnot _]; subst.
    rewrite Forall_forall in *. intros y Hy.
    specialize (Hx y Hy). assert (x <> y) by (intros ->; contradiction). lia.
Qed.

Lemma sorted_map_fst (s : list (Z * Z)) :
  StronglySorted (fun a b => (fst a <=? fst b)%Z = true) s ->
  StronglySorted Z.le (map fst s).
Proof.
  induction 1 as [| x s Hs IH Hx]; simpl; constructor; [exact IH |].
  rewrite Forall_forall in *. intros k Hk. apply in_map_iff in Hk.
  destruct Hk as [y [<- Hy]]. apply Z.leb_le. now apply Hx.
Qed.

Lemma distribution_keys_ascending (l : list Z) :
  StronglySorted Z.lt (map fst (sort_index (value_counts l))).
Proof.
  apply le_sorted_NoDup_lt.
  - apply sorted_map_fst. unfold sort_index. apply sort_sorted.
    + intros x y. rewrite !Z.leb_le. lia.
    + intros x y z. rewrite !Z.leb_le. lia.
  - apply (Permutation_NoDup
             (Permutation_sym (Permutation_map fst (distribution_perm l)))).
    unfold counted. rewrite map_map. simpl. rewrite map_id.
    apply NoDup_nodup.
Qed.

(** ** The average on the rating scale *)

(** The scale of the ratings, and the largest number of present ratings
    for which the average is evaluated below. *)
Definition on_scale (r : Z) : Prop := (1 <= r <= 5)%Z.

Definition max_checked : Z := 100.






(** Adding a rating to a sum below 500 is exact. *)
Definition check_add (a : Z) : bool :=
  forallb (fun b => PrimFloat.Leibniz.eqb (F64.of_Z a + F64.of_Z b) (F64.of_Z (a + b)))
          [1; 2; 3; 4; 5]%Z.

Fixpoint check_adds (fuel : nat) (a : Z) : bool :=
  match fuel with
  | O => true
  | S f => check_add a && check_adds f (a + 1)
  end.



Lemma check_adds_sound (fuel : nat) (a0 a b : Z) :
  check_adds fuel a0 = true -> (a0 <= a < a0 + Z.of_nat fuel)%Z -> on_scale b ->
  F64.of_Z a + F64.of_Z b = F64.of_Z (a + b).
Proof.
  revert a0. induction fuel as [| f IH]; intros a0 H Ha Hb; [lia |].
  cbn [check_adds] in H. apply andb_prop in H. destruct H as [H0 H1].
  destruct (Z.eq_dec a a0) as [-> | Hne]; [| apply (IH (a0 + 1)%Z H1); [lia | exact Hb]].
  unfold check_add in H0. rewrite forallb_forall in H0.
  apply FloatAxioms.Leibniz.eqb_spec, H0.
  unfold on_scale in Hb.
  assert (Hcases : (b = 1 \/ b = 2 \/ b = 3 \/ b = 4 \/ b = 5)%Z) by lia.
  simpl. intuition.
Qed.


Lemma additions_checked : check_adds 500 0 = true.
Proof. vm_compute. reflexivity. Qed.



(** On the scale the additions of [Series.mean] are exact. *)
Lemma float_sum_exact (l : list Z) (a : Z) :
  Forall on_scale l -> (0 <= a)%Z ->
  (a + 5 * Z.of_nat (List.length l) <= 500)%Z ->
  fold_left PrimFloat.add (map F64.of_Z l) (F64.of_Z a) = F64.of_Z (a + sum_of l).
Proof.
  intros H. revert a. induction H as [| r l Hr Hl IH]; intros a Ha Hb.
  - simpl. f_equal. unfold sum_of. simpl. lia.
  - cbn [map fold_left List.length] in *.
    rewrite (check_adds_sound 500 0 a r additions_checked) by (lia || exact Hr).
    rewrite IH by (unfold on_scale in Hr; lia).
    f_equal. unfold sum_of. simpl. lia.
Qed.

Lemma mean_on_scale (l : list Z) :
  l <> [] -> Forall on_scale l -> (Z.of_nat (List.length l) <= max_checked)%Z ->
  mean l = F64.of_Z (sum_of l) / F64.of_Z (Z.of_nat (List.length l)).
Proof.
  intros Hne Hl Hn. unfold mean, F64.sum. destruct l as [| x l]; [contradiction |].
  change 0%float with (F64.of_Z 0).
  rewrite float_sum_exact; [reflexivity | exact Hl | lia |].
  unfold max_checked in Hn. lia.
Qed.


(** ** The claim on [analyze_sentiments] *)




(** The records of the example: ratings 3, 5, 4, 4 and a missing one. *)
Definition example_books : list book :=
  [Sample.a_book "Sapiens" 54.23 (Rating 3);
   Sample.a_book "Soumission" 50.10 (Rating 5);
   Sample.a_book "Sharp Objects" 47.82 (Rating 4);
   Sample.a_book "The Requiem Red" 22.65 (Rating 4);
   Sample.a_book "It" 25.01 RatingNaN].

Example analyze_example :
  analyze_sentiments example_books
  = Stats 4 (Rating 5) (Rating 3) 4 [(3, 1); (4, 2); (5, 1)]%Z.
Proof. vm_compute. reflexivity. Qed.


End AnalyzeSpec.

(* ================================================================== *)
(** * The routes *)

Module RoutesSpec.

Import Routes.
Local Open Scope float_scope.

(** ** [index] *)

(** Two records, neither with a rating. *)
Definition unrated_books : list book :=
  [Sample.a_book "It" 25.01 RatingNaN; Sample.a_book "Emma" 12.5 RatingNaN].

(** C5 (as stated) fails: for a record set that is not empty but has no
    present rating, [index] does call [analyze_sentiments]. *)
Lemma index_analyzes_records_without_rating :
  forallb (fun b => isna (rating b)) unrated_books = true
  /\ Analyze.ratings_of unrated_books = []
  /\ snd (index_stats unrated_books) = [CallAnalyze unrated_books].
Proof. repeat split; reflexivity. Qed.

Section IndexRoute.

Variable analyzer : string -> list string.
Variable ln : float -> float.

(** C5 (amended): whenever the fetched record set is empty, [index] does
    not call [analyze_sentiments] and takes the statistics as empty; for a
    record set that is not empty it calls [analyze_sentiments] on it,
    whether or not a rating is present and whether or not the request
    fails later on, and a page that is rendered carries the statistics of
    this call. *)
Theorem index_analyze_guard (get : Scrape.http) :
  index_stats [] = (None, [])
  /\ (Scrape.scrape_books_to_scrape get 2 = OK [] ->
      index analyzer ln get = (OK (Page [] None [] [] []), []))
  /\ (forall b books,
         Scrape.scrape_books_to_scrape get 2 = OK (b :: books) ->
         In (CallAnalyze (b :: books)) (snd (index analyzer ln get))
         /\ forall page,
              fst (index analyzer ln get) = OK page ->
              page_stats page = Some (Analyze.analyze_sentiments (b :: books))).
Proof.
  split; [reflexivity |]. split.
  - intros H. unfold index. rewrite H. reflexivity.
  - intros b books H. unfold index. rewrite H. simpl. split; [now left |].
    intros page.
    destruct (Recommend.recommend_books analyzer ln (b :: books) 5) as [rs |];
      simpl; intros E; [| discriminate].
    inversion E; subst. reflexivity.
Qed.

End IndexRoute.

(** A server whose two books carry a rating class outside the rating map,
    and one that has the first of them only. *)
Definition unrated_article (t : string) (p : string) : Scrape.article :=
  Scrape.Article (OK t) (OK p) (OK ["star-rating"; "Zero"]%string)
                 (OK "../media/cache/cover.jpg"%string).

Definition unrated_get : Scrape.http :=
  fun p =>
    if (p =? 1)%Z
    then OK (Scrape.Response 200
               [unrated_article "It" "£25.01"; unrated_article "Emma" "£12.50"])
    else OK (Scrape.Response 404 []).

Definition unrated_it_get : Scrape.http :=
  fun p =>
    if (p =? 1)%Z
    then OK (Scrape.Response 200 [unrated_article "It" "£25.01"])
    else OK (Scrape.Response 404 []).

Lemma scrape_unrated :
  Scrape.scrape_books_to_scrape unrated_get 2 = OK unrated_books
  /\ Scrape.scrape_books_to_scrape unrated_it_get 2
     = OK [Sample.a_book "It" 25.01 RatingNaN].
Proof. split; vm_compute; reflexivity. Qed.

Lemma index_analyze_guard_witness :
  index Sample.analyzer Sample.ln ScrapeSpec.not_found_get
    = (OK (Page [] None [] [] []), [])
  /\ (Analyze.ratings_of unrated_books = []
      /\ In (CallAnalyze unrated_books)
            (snd (index Sample.analyzer Sample.ln unrated_get))
      /\ exists page,
           fst (index Sample.analyzer Sample.ln unrated_get) = OK page
           /\ page_stats page = Some (Analyze.analyze_sentiments unrated_books))
  /\ (fst (index Sample.analyzer Sample.ln unrated_it_get) = Raise ValueError
      /\ In (CallAnalyze [Sample.a_book "It" 25.01 RatingNaN])
            (snd (index Sample.analyzer Sample.ln unrated_it_get))).
Proof.
  destruct scrape_unrated as [Hboth Hit].
  split; [| split].
  - apply (index_analyze_guard Sample.analyzer Sample.ln ScrapeSpec.not_found_get).
    reflexivity.
  - destruct (index_analyze_guard Sample.analyzer Sample.ln unrated_get)
      as (_ & _ & H).
    destruct (H _ _ Hboth) as [Hlog Hpage].
    split; [reflexivity |]. split; [exact Hlog |].
    assert (E : exists page,
               fst (index Sample.analyzer Sample.ln unrated_get) = OK page)
      by (vm_compute; eauto).
    destruct E as [page E]. exists page. split; [exact E | exact (Hpage page E)].
  - split; [vm_compute; reflexivity |].
    destruct (index_analyze_guard Sample.analyzer Sample.ln unrated_it_get)
      as (_ & _ & H).
    apply (H _ _ Hit).
Defined.

(** ** [order] *)

(** The total as the specification words it: the prices of the records of
    [R] whose title is in [S], added up from the first record on. *)
Fixpoint sum_selected (acc : float) (R : list book) (S : list string) : float :=
  match R with
  | [] => acc
  | r :: R' =>
      if in_dec string_dec (title r) S
      then sum_selected (acc + price r) R' S
      else sum_selected acc R' S
  end.

Lemma selected_In (t : string) (S : list string) :
  existsb (String.eqb t) S = true <-> In t S.
Proof.
  rewrite existsb_exists. split.
  - intros [u [Hu E]]. apply String.eqb_eq in E. now subst.
  - intros H. exists t. split; [exact H | apply String.eqb_refl].
Qed.

Lemma fold_selected (R : list book) (S : list string) (acc : float) :
  fold_left PrimFloat.add
    (map price (filter (fun b => existsb (String.eqb (title b)) S) R)) acc
  = sum_selected acc R S.
Proof.
  revert acc. induction R as [| r R IH]; intros acc; simpl; [reflexivity |].
  destruct (in_dec string_dec (title r) S) as [Hin | Hout].
  - apply selected_In in Hin. rewrite Hin. simpl. apply IH.
  - destruct (existsb (String.eqb (title r)) S) eqn:E.
    + apply selected_In in E. contradiction.
    + apply IH.
Qed.

(** C7: the total that a POST to [order] reports is the sum of the prices
    of the fetched records whose title is selected; with no title selected
    it is 0. *)
Theorem order_total_sums_selected (R : list book) (S : list string) :
  order_total R S = sum_selected 0 R S
  /\ order_total R [] = 0
  /\ (forall get feedback,
         Scrape.scrape_books_to_scrape get 2 = OK R ->
         order get POST S feedback
         = OK (Confirmation (sum_selected 0 R S) feedback)).
Proof.
  assert (H : order_total R S = sum_selected 0 R S) by apply fold_selected.
  split; [exact H |]. split.
  - unfold order_total, F64.sum. rewrite fold_selected. clear H.
    induction R as [| r R' IH]; simpl; [reflexivity | exact IH].
  - intros get feedback E. unfold order. rewrite E. simpl. now rewrite H.
Qed.

Lemma order_total_sums_selected_witness :
  order ScrapeSpec.sample_get POST ["Sapiens"]%string (Some "thanks"%string)
  = OK (Confirmation (sum_selected 0 ScrapeSpec.sample_books ["Sapiens"]%string)
                     (Some "thanks"%string)).
Proof.
  apply (order_total_sums_selected ScrapeSpec.sample_books ["Sapiens"]%string).
  exact ScrapeSpec.scrape_sample.
Defined.

Example order_total_example :
  order ScrapeSpec.sample_get POST ["Sapiens"]%string None
    = OK (Confirmation 54.23 None)
  /\ order ScrapeSpec.sample_get POST [] None = OK (Confirmation 0 None).
Proof. split; vm_compute; reflexivity. Qed.

(** The selection is read as a set: its order and its repetitions do not
    matter. *)
Lemma order_total_same_selection (R : list book) (S S' : list string) :
  (forall t, In t S <-> In t S') -> order_total R S = order_total R S'.
Proof.
  intros H. unfold order_total. f_equal. f_equal. apply filter_ext.
  intros b. apply eq_true_iff_eq. rewrite !selected_In. apply H.
Qed.

Lemma fold_add_meets_nan (l : list float) (acc x : float) :
  In x l -> is_nan x = true -> fold_left PrimFloat.add l acc = nan.
Proof.
  revert acc. induction l as [| y l IH]; intros acc Hin Hx; [contradiction |].
  simpl. destruct Hin as [-> | Hin].
  - rewrite (F64Facts.add_nan_r acc x Hx). apply F64Facts.fold_add_nan.
  - now apply IH.
Qed.

(** Sapiens with its price, and a record whose price text had no digit. *)
Definition priced_and_unpriced : list book :=
  [Sample.a_book "Sapiens" 54.23 (Rating 5); Sample.a_book "It" nan (Rating 3)].

(** C4 (as stated) fails: a selected record with a missing price does
    contribute; the total is NaN, not the sum of the prices present. *)
Lemma order_total_nan_for_missing_price :
  is_nan (order_total priced_and_unpriced ["Sapiens"; "It"]%string) = true
  /\ order_total (filter (fun b => negb (is_nan (price b))) priced_and_unpriced)
                 ["Sapiens"; "It"]%string
     = 54.23.
Proof. split; reflexivity. Qed.

(** C4 (amended): the total of an order has no guard against a missing
    price: the price of every selected record is added, and a selected
    record whose price is missing (NaN) makes the total NaN. *)
Theorem order_total_missing_price_propagates
        (R : list book) (S : list string) (b : book) :
  In b R -> In (title b) S -> is_nan (price b) = true ->
  order_total R S = nan.
Proof.
  intros Hb Hsel Hnan. unfold order_total, F64.sum.
  apply (fold_add_meets_nan _ _ (price b)); [| exact Hnan].
  apply in_map. apply filter_In. split; [exact Hb |].
  now apply selected_In.
Qed.

Lemma order_total_missing_price_propagates_witness :
  order_total priced_and_unpriced ["It"]%string = nan.
Proof.
  apply (order_total_missing_price_propagates
           priced_and_unpriced ["It"]%string (Sample.a_book "It" nan (Rating 3))).
  - right. now left.
  - now left.
  - reflexivity.
Defined.

End RoutesSpec.

(* ================================================================== *)
(** * More on the fetcher: failure, success and the records returned *)

Module ScrapeMore.

Import Scrape ScrapeSpec.

Lemma range_cons (lo hi : Z) :
  lo < hi -> range lo hi = lo :: range (lo + 1) hi.
Proof.
  intros H. unfold range.
  replace (Z.to_nat (hi - lo)) with (S (Z.to_nat (hi - (lo + 1)))) by lia.
  simpl. rewrite Z.add_0_r. f_equal.
  rewrite <- seq_shift, map_map. apply map_ext. intros i. lia.
Qed.

Lemma range_nil (lo hi : Z) : hi <= lo -> range lo hi = [].
Proof.
  intros H. unfold range. now replace (Z.to_nat (hi - lo)) with 0%nat by lia.
Qed.

Lemma scrape_range_raise (get : http) (e : exn) (n : nat) :
  forall lo hi k books,
    n = Z.to_nat (k - lo) -> lo <= k < hi ->
    (forall p, lo <= p < k -> page_loads get p) ->
    get k = Raise e ->
    scrape_pages get (range lo hi) books = Raise e.
Proof.
  induction n as [| n IH]; intros lo hi k books Hn Hk Hload E.
  - assert (lo = k) by lia. subst lo.
    rewrite range_cons by lia. simpl. now rewrite E.
  - rewrite range_cons by lia. simpl.
    destruct (Hload lo) as [res [Eres Hres]]; [lia |]. rewrite Eres. simpl.
    assert (Hrest : forall books',
               scrape_pages get (range (lo + 1) hi) books' = Raise e).
    { intros books'. apply (IH (lo + 1) hi k); [lia | lia | | exact E].
      intros p Hp. apply Hload. lia. }
    destruct (status_code res =? 200) eqn:E200; [| apply Hrest].
    apply Z.eqb_eq in E200.
    rewrite (extract_articles_ok _ _ (Hres E200)). simpl. apply Hrest.
Qed.

(** X1: the exception of the first request that fails is the outcome of
    [scrape_books_to_scrape]: when the pages before page [k] load and the
    request for page [k] raises [e], the call raises [e], whatever the later
    pages hold; the records of the earlier pages are lost. *)
Theorem scrape_raises_first_request_error
        (get : http) (pages k : Z) (e : exn) :
  1 <= k <= pages ->
  (forall p, 1 <= p < k -> page_loads get p) ->
  get k = Raise e ->
  scrape_books_to_scrape get pages = Raise e.
Proof.
  intros Hk Hload E. unfold scrape_books_to_scrape.
  apply (scrape_range_raise get e (Z.to_nat (k - 1)) 1 (pages + 1) k);
    [reflexivity | lia | exact Hload | exact E].
Qed.

(** A server whose second page times out after a first page with a book. *)
Definition timeout_get : http :=
  fun p => if p =? 2 then Raise Timeout else sample_get 2.

Lemma scrape_raises_first_request_error_witness :
  scrape_books_to_scrape timeout_get 3 = Raise Timeout.
Proof.
  apply (scrape_raises_first_request_error timeout_get 3 2 Timeout).
  - lia.
  - intros p Hp. assert (p = 1) by lia. subst p.
    eexists. split; [reflexivity |]. intros _.
    constructor; [reflexivity | constructor].
  - reflexivity.
Defined.

(** X2: with a page count of 0 or less no page is requested and the
    result is the empty list, also on a server whose every request would
    fail. *)
Theorem scrape_no_pages (get : http) (pages : Z) :
  pages <= 0 -> scrape_books_to_scrape get pages = OK [].
Proof.
  intros H. unfold scrape_books_to_scrape. now rewrite range_nil by lia.
Qed.

Lemma scrape_no_pages_witness :
  scrape_books_to_scrape (fun _ => Raise ConnectionError) 0 = OK []
  /\ scrape_books_to_scrape (fun _ => Raise ConnectionError) (-3) = OK [].
Proof.
  split; apply scrape_no_pages; lia.
Defined.

(** ** What a returned list tells *)

Lemma extract_articles_inv (arts : list article) (books out : list book) :
  extract_articles arts books = OK out ->
  Forall (fun a => is_ok (extract_book a) = true) arts.
Proof.
  revert books. induction arts as [| a arts IH]; intros books H; [constructor |].
  simpl in H. destruct (extract_book a) as [b |] eqn:E; [| discriminate].
  simpl in H. constructor; [now rewrite E | eapply IH, H].
Qed.

Lemma scrape_pages_inv (get : http) (todo : list Z) (books out : list book) :
  scrape_pages get todo books = OK out ->
  forall p, In p todo -> page_loads get p.
Proof.
  revert books. induction todo as [| q todo IH]; intros books H p Hp;
    [contradiction |].
  simpl in H. destruct (get q) as [res |] eqn:Eres; [| discriminate].
  simpl in H. destruct (status_code res =? 200) eqn:E200.
  - destruct (extract_articles (product_pods res) books) as [books' |] eqn:Ex;
      [| discriminate].
    simpl in H. destruct Hp as [<- | Hp]; [| eapply IH; eassumption].
    exists res. split; [exact Eres |]. intros _.
    eapply extract_articles_inv, Ex.
  - destruct Hp as [<- | Hp]; [| eapply IH; eassumption].
    exists res. split; [exact Eres |]. intros E. apply Z.eqb_neq in E200.
    contradiction.
Qed.

(** The number of entries that page [p] shows with status 200. *)
Definition entries (get : http) (p : Z) : nat :=
  match get p with
  | OK res => if status_code res =? 200 then List.length (product_pods res) else 0%nat
  | Raise _ => 0%nat
  end.

Lemma extracted_length (arts : list article) :
  Forall (fun a => is_ok (extract_book a) = true) arts ->
  List.length (extracted arts) = List.length arts.
Proof.
  unfold extracted. induction 1 as [| a arts Ha _ IH]; simpl; [reflexivity |].
  destruct (extract_book a); [| discriminate]. simpl. now rewrite IH.
Qed.

Lemma page_records_length (get : http) (p : Z) :
  page_loads get p -> List.length (page_records get p) = entries get p.
Proof.
  intros [res [E H]]. unfold page_records, entries. rewrite E.
  destruct (status_code res =? 200) eqn:E200; [| reflexivity].
  apply extracted_length, H. now apply Z.eqb_eq.
Qed.

(** X3: a list returned by [scrape_books_to_scrape] is complete: every
    requested page was answered, every entry of a page with status 200 was
    extracted, and the list holds one record per such entry, in page
    order. *)
Theorem scrape_result_complete (get : http) (pages : Z) (books : list book) :
  scrape_books_to_scrape get pages = OK books ->
  (forall p, 1 <= p <= pages -> page_loads get p)
  /\ books = flat_map (page_records get) (range 1 (pages + 1))
  /\ List.length books = list_sum (map (entries get) (range 1 (pages + 1))).
Proof.
  intros H. unfold scrape_books_to_scrape in H.
  assert (Hload : forall p, In p (range 1 (pages + 1)) -> page_loads get p)
    by (eapply scrape_pages_inv, H).
  assert (Hbooks : books = flat_map (page_records get) (range 1 (pages + 1))).
  { rewrite (scrape_pages_ok get _ [] Hload) in H. now inversion H. }
  split; [| split].
  - intros p Hp. apply Hload, In_range. lia.
  - exact Hbooks.
  - rewrite Hbooks. clear H Hbooks.
    induction (range 1 (pages + 1)) as [| p l IH]; simpl; [reflexivity |].
    rewrite length_app, IH by (intros q Hq; apply Hload; now right).
    f_equal. apply page_records_length, Hload. now left.
Qed.

Lemma scrape_result_complete_witness :
  (forall p, 1 <= p <= 2 -> page_loads sample_get p)
  /\ sample_books = flat_map (page_records sample_get) (range 1 (2 + 1))
  /\ List.length sample_books
     = list_sum (map (entries sample_get) (range 1 (2 + 1))).
Proof.
  apply (scrape_result_complete sample_get 2 sample_books). exact scrape_sample.
Defined.

(** ** Where a record comes from *)

Lemma extracted_In (arts : list article) (b : book) :
  In b (extracted arts) -> exists a, In a arts /\ extract_book a = OK b.
Proof.
  unfold extracted. rewrite in_flat_map. intros [a [Ha Hb]]. exists a.
  split; [exact Ha |].
  destruct (extract_book a) as [b' |]; simpl in Hb; [| contradiction].
  destruct Hb as [-> | []]. reflexivity.
Qed.

Lemma scrape_provenance (get : http) (pages : Z) (books : list book) (b : book) :
  scrape_books_to_scrape get pages = OK books -> In b books ->
  exists p res a,
    1 <= p <= pages /\ get p = OK res /\ status_code res = 200
    /\ In a (product_pods res) /\ extract_book a = OK b.
Proof.
  intros H Hb. unfold scrape_books_to_scrape in H.
  assert (Hload : forall p, In p (range 1 (pages + 1)) -> page_loads get p)
    by (eapply scrape_pages_inv, H).
  rewrite (scrape_pages_ok get _ [] Hload) in H. inversion H; subst books.
  simpl in Hb. apply in_flat_map in Hb. destruct Hb as [p [Hp Hb]].
  apply In_range in Hp. unfold page_records in Hb.
  destruct (get p) as [res |] eqn:E; [| contradiction].
  destruct (status_code res =? 200) eqn:E200; [| contradiction].
  apply Z.eqb_eq in E200. apply extracted_In in Hb. destruct Hb as [a [Ha Hab]].
  exists p, res, a. repeat split; try assumption; lia.
Qed.

(** X4: [scrape_books_to_scrape] invents no record: each record of the
    result is the extraction of an entry of a requested page that was
    answered with status 200; nothing is taken from a page with another
    status. *)
Theorem scrape_records_from_200_pages
        (get : http) (pages : Z) (books : list book) (b : book) :
  scrape_books_to_scrape get pages = OK books -> In b books ->
  exists p res a,
    1 <= p <= pages /\ get p = OK res /\ status_code res = 200
    /\ In a (product_pods res) /\ extract_book a = OK b.
Proof. apply scrape_provenance. Qed.

Lemma scrape_records_from_200_pages_witness :
  exists p res a,
    1 <= p <= 2 /\ sample_get p = OK res /\ status_code res = 200
    /\ In a (product_pods res)
    /\ extract_book a
       = OK (Book "Sapiens" 54.23 (Rating 5) "BooksToScrape"
                  "http://books.toscrape.com/media/cache/be/a5/sapiens.jpg").
Proof.
  apply (scrape_records_from_200_pages sample_get 2 sample_books).
  - exact scrape_sample.
  - now left.
Defined.

Lemma rating_map_get_range (c : string) (n : Z) :
  rating_map_get c = Rating n -> 1 <= n <= 5.
Proof.
  unfold rating_map_get.
  repeat match goal with
         | |- context [String.eqb ?a ?b] => destruct (String.eqb a b)
         end; intros H; inversion H; lia.
Qed.

(** The fields every extracted record has. *)
Definition well_formed (b : book) : Prop :=
  source b = "BooksToScrape"%string
  /\ (rating b = RatingNaN \/ exists n, rating b = Rating n /\ 1 <= n <= 5)
  /\ exists path, image b = ("http://books.toscrape.com/" ++ path)%string.

Lemma extract_book_well_formed (a : article) (b : book) :
  extract_book a = OK b -> well_formed b.
Proof.
  unfold extract_book. intros H.
  destruct (h3_a_title a) as [t |]; simpl in H; [| discriminate].
  destruct (price_color_text a) as [pt |]; simpl in H; [| discriminate].
  destruct (extract_price pt) as [pr |]; simpl in H; [| discriminate].
  destruct (star_rating_class a) as [cl |]; simpl in H; [| discriminate].
  destruct (subscript cl 1) as [rc |]; simpl in H; [| discriminate].
  destruct (img_src a) as [src |]; simpl in H; [| discriminate].
  inversion H; subst b; clear H. unfold well_formed. simpl.
  split; [reflexivity |]. split.
  - destruct (rating_map_get rc) as [n |] eqn:E; [right | now left].
    exists n. split; [reflexivity | eapply rating_map_get_range, E].
  - eexists. reflexivity.
Qed.

(** X5: every record that [scrape_books_to_scrape] returns carries the
    source tag "BooksToScrape", a rating that is missing or an integer from
    1 to 5, and an image URL on http://books.toscrape.com/. *)
Theorem scrape_records_well_formed
        (get : http) (pages : Z) (books : list book) :
  scrape_books_to_scrape get pages = OK books -> Forall well_formed books.
Proof.
  intros H. apply Forall_forall. intros b Hb.
  destruct (scrape_provenance get pages books b H Hb)
    as (p & res & a & _ & _ & _ & _ & Ha).
  eapply extract_book_well_formed, Ha.
Qed.

Lemma scrape_records_well_formed_witness : Forall well_formed sample_books.
Proof.
  apply (scrape_records_well_formed sample_get 2). exact scrape_sample.
Defined.

End ScrapeMore.

(* ================================================================== *)
(** * More on the price text: which texts give a price *)

Module PriceText.

Import Scrape ScrapeSpec.

(** Number of characters of [s] that satisfy [f]. *)
Fixpoint count_chars (f : ascii -> bool) (s : string) : nat :=
  match s with
  | EmptyString => 0%nat
  | String c rest => ((if f c then 1 else 0) + count_chars f rest)%nat
  end.

Fixpoint all_kept (s : string) : bool :=
  match s with
  | EmptyString => true
  | String c rest => kept c && all_kept rest
  end.

Lemma period_not_digit (c : ascii) : is_period c = true -> is_digit c = false.
Proof.
  intros H. destruct (is_digit c) eqn:E; [| reflexivity].
  apply digit_not_period in E. congruence.
Qed.

Lemma re_sub_all_kept (s : string) : all_kept (re_sub_non_numeric s) = true.
Proof.
  induction s as [| c s IH]; simpl; [reflexivity |].
  destruct (kept c) eqn:E; simpl; [now rewrite E |]. exact IH.
Qed.

Lemma re_sub_count_digit (s : string) :
  count_chars is_digit (re_sub_non_numeric s) = count_chars is_digit s.
Proof.
  induction s as [| c s IH]; simpl; [reflexivity |].
  unfold kept. destruct (is_digit c) eqn:Ed; simpl; [now rewrite Ed, IH |].
  destruct (is_period c); simpl; [now rewrite Ed, IH | exact IH].
Qed.

Lemma re_sub_count_period (s : string) :
  count_chars is_period (re_sub_non_numeric s) = count_chars is_period s.
Proof.
  induction s as [| c s IH]; simpl; [reflexivity |].
  unfold kept. destruct (is_period c) eqn:Ep; simpl.
  - rewrite orb_true_r. simpl. now rewrite Ep, IH.
  - rewrite orb_false_r. destruct (is_digit c); simpl; [now rewrite Ep, IH | exact IH].
Qed.

Lemma kept_length (s : string) :
  all_kept s = true ->
  String.length s = (count_chars is_digit s + count_chars is_period s)%nat.
Proof.
  induction s as [| c s IH]; simpl; intros H; [reflexivity |].
  apply andb_prop in H. destruct H as [Hc Hs]. rewrite (IH Hs).
  unfold kept in Hc. destruct (is_digit c) eqn:Ed.
  - rewrite (digit_not_period c Ed). lia.
  - simpl in Hc. rewrite Hc. lia.
Qed.

Lemma kept_no_period (s : string) :
  all_kept s = true -> count_chars is_period s = 0%nat -> all_digits s = true.
Proof.
  induction s as [| c s IH]; simpl; intros H Hp; [reflexivity |].
  apply andb_prop in H. destruct H as [Hc Hs].
  destruct (is_period c) eqn:Ep; [discriminate |].
  unfold kept in Hc. rewrite Ep, orb_false_r in Hc. rewrite Hc. simpl.
  now apply IH.
Qed.

Lemma digits_length (s : string) :
  all_digits s = true -> String.length s = count_chars is_digit s.
Proof.
  induction s as [| c s IH]; simpl; intros H; [reflexivity |].
  apply andb_prop in H. destruct H as [Hc Hs]. now rewrite Hc, (IH Hs).
Qed.

Lemma split_first_period (s : string) :
  all_kept s = true -> (1 <= count_chars is_period s)%nat ->
  exists i rest,
    split_period s = (i, Some rest)
    /\ all_digits i = true /\ all_kept rest = true
    /\ count_chars is_period s = S (count_chars is_period rest)
    /\ count_chars is_digit s
       = (String.length i + count_chars is_digit rest)%nat.
Proof.
  induction s as [| c s IH]; simpl; intros H Hp; [lia |].
  apply andb_prop in H. destruct H as [Hc Hs].
  destruct (is_period c) eqn:Ep.
  - exists EmptyString, s. rewrite (period_not_digit c Ep). simpl.
    repeat split; auto.
  - unfold kept in Hc. rewrite Ep, orb_false_r in Hc. rewrite Hc.
    destruct (IH Hs) as (i & rest & E & Hi & Hr & Hcp & Hcd); [simpl in Hp; lia |].
    exists (String c i), rest. rewrite E. simpl. rewrite Hc, Hi.
    repeat split; auto; simpl; lia.
Qed.

Lemma digits_value_app (i rest : string) (acc : Z) :
  all_digits i = true ->
  exists acc', digits_value (i ++ rest) acc = digits_value rest acc'.
Proof.
  revert acc. induction i as [| c i IH]; simpl; intros acc H; [eauto |].
  apply andb_prop in H. destruct H as [Hc Hi]. rewrite Hc. now apply IH.
Qed.

Lemma digits_value_period (s : string) (acc : Z) :
  all_kept s = true -> (1 <= count_chars is_period s)%nat ->
  digits_value s acc = None.
Proof.
  revert acc. induction s as [| c s IH]; simpl; intros acc H Hp; [lia |].
  apply andb_prop in H. destruct H as [Hc Hs].
  destruct (is_period c) eqn:Ep.
  - now rewrite (period_not_digit c Ep).
  - unfold kept in Hc. rewrite Ep, orb_false_r in Hc. rewrite Hc.
    apply IH; [exact Hs | simpl in Hp; lia].
Qed.

Lemma extract_price_nonempty (text : string) :
  (1 <= String.length (re_sub_non_numeric text))%nat ->
  extract_price text = py_float (re_sub_non_numeric text).
Proof.
  unfold extract_price. destruct (re_sub_non_numeric text); simpl; [lia | reflexivity].
Qed.

(** X6: what a price text gives is decided by how many digits and periods
    it holds.  Without digit and period the price is missing (NaN); with a
    digit and at most one period it is a float; with two periods or more, or
    with one period and no digit, extraction raises [ValueError]. *)
Theorem price_text_outcome (text : string) :
  (count_chars is_digit text = 0%nat -> count_chars is_period text = 0%nat ->
   extract_price text = OK nan)
  /\ ((1 <= count_chars is_digit text)%nat ->
      (count_chars is_period text <= 1)%nat ->
      exists x, extract_price text = OK x)
  /\ ((2 <= count_chars is_period text)%nat
      \/ (count_chars is_period text = 1%nat /\ count_chars is_digit text = 0%nat) ->
      extract_price text = Raise ValueError).
Proof.
  pose proof (re_sub_all_kept text) as Hk.
  pose proof (kept_length _ Hk) as Hlen.
  rewrite re_sub_count_digit, re_sub_count_period in Hlen.
  split; [| split].
  - intros Hd Hp. unfold extract_price.
    destruct (re_sub_non_numeric text); [reflexivity | simpl in Hlen; lia].
  - intros Hd Hp. rewrite extract_price_nonempty by lia.
    destruct (Nat.eq_dec (count_chars is_period text) 0) as [H0 | H1].
    + assert (Hall : all_digits (re_sub_non_numeric text) = true).
      { apply kept_no_period; [exact Hk | now rewrite re_sub_count_period]. }
      destruct (py_float_digits _ Hall) as [n [_ En]]; [lia | eauto].
    + destruct (split_first_period _ Hk) as (i & rest & E & Hi & Hr & Hcp & Hcd).
      { rewrite re_sub_count_period. lia. }
      rewrite re_sub_count_period in Hcp. rewrite re_sub_count_digit in Hcd.
      assert (Hrest : all_digits rest = true) by (apply kept_no_period; [exact Hr | lia]).
      destruct (digits_value_total (i ++ rest) 0) as [n En].
      { now rewrite all_digits_app, Hi, Hrest. }
      unfold py_float. rewrite E.
      rewrite (digits_length rest Hrest).
      destruct (String.length i + count_chars is_digit rest =? 0)%nat eqn:Ez.
      * apply Nat.eqb_eq in Ez. lia.
      * rewrite En. eauto.
  - intros Hbad. rewrite extract_price_nonempty by lia.
    destruct (split_first_period _ Hk) as (i & rest & E & Hi & Hr & Hcp & Hcd).
    { rewrite re_sub_count_period. lia. }
    rewrite re_sub_count_period in Hcp. rewrite re_sub_count_digit in Hcd.
    unfold py_float. rewrite E.
    destruct (String.length i + String.length rest =? 0)%nat eqn:Ez;
      [reflexivity |].
    apply Nat.eqb_neq in Ez.
    destruct Hbad as [H2 | [H1 H0]].
    + destruct (digits_value_app i rest 0 Hi) as [acc' ->].
      rewrite digits_value_period; [reflexivity | exact Hr | lia].
    + exfalso.
      assert (Hrest : all_digits rest = true) by (apply kept_no_period; [exact Hr | lia]).
      pose proof (digits_length rest Hrest). lia.
Qed.

Lemma price_text_outcome_witness :
  extract_price "Out of stock" = OK nan
  /\ (exists x, extract_price "£51.77" = OK x)
  /\ extract_price "1.234.56" = Raise ValueError
  /\ extract_price "n/a." = Raise ValueError.
Proof.
  split; [| split; [| split]].
  - destruct (price_text_outcome "Out of stock") as (H & _ & _).
    apply H; reflexivity.
  - destruct (price_text_outcome "£51.77") as (_ & H & _).
    apply H; vm_compute; lia.
  - destruct (price_text_outcome "1.234.56") as (_ & _ & H).
    apply H. left. vm_compute. lia.
  - destruct (price_text_outcome "n/a.") as (_ & _ & H).
    apply H. right. split; reflexivity.
Defined.

End PriceText.

(* ================================================================== *)
(** * The order of binary64 numbers *)

Module F64Order.

Local Open Scope float_scope.

(** A key that orders the numbers that are not NaN: the sign class, then
    the exponent and the mantissa (both negated for negative numbers),
    compared lexicographically. *)
Definition key (f : spec_float) : Z * Z * Z :=
  match f with
  | S754_zero _ => (0, 0, 0)%Z
  | S754_infinity false => (2, 0, 0)%Z
  | S754_infinity true => (-2, 0, 0)%Z
  | S754_nan => (0, 0, 0)%Z
  | S754_finite false m e => (1, e, Zpos m)%Z
  | S754_finite true m e => (-1, - e, Zneg m)%Z
  end.

Definition lt3 (a b : Z * Z * Z) : Prop :=
  (fst (fst a) < fst (fst b)
   \/ (fst (fst a) = fst (fst b)
       /\ (snd (fst a) < snd (fst b)
           \/ (snd (fst a) = snd (fst b) /\ snd a < snd b))))%Z.

Lemma SFltb_key (f1 f2 : spec_float) :
  f1 <> S754_nan -> f2 <> S754_nan ->
  (SFltb f1 f2 = true <-> lt3 (key f1) (key f2)).
Proof.
  intros H1 H2. unfold SFltb, SFcompare, lt3.
  destruct f1 as [s1 | s1 | | s1 m1 e1], f2 as [s2 | s2 | | s2 m2 e2];
    try congruence;
    try destruct s1; try destruct s2; simpl;
    try (split; intros H; [try discriminate; lia | try reflexivity; lia]).
  - change (Pos.compare_cont Eq m1 m2) with (Pos.compare m1 m2).
    destruct (Z.compare_spec e1 e2); destruct (Pos.compare_spec m1 m2); simpl;
      (split; intros H'; [try discriminate; lia | try reflexivity; lia]).
  - change (Pos.compare_cont Eq m1 m2) with (Pos.compare m1 m2).
    destruct (Z.compare_spec e1 e2); destruct (Pos.compare_spec m1 m2); simpl;
      (split; intros H'; [try discriminate; lia | try reflexivity; lia]).
Qed.

Lemma not_nan_Prim2SF (x : float) : is_nan x = false -> Prim2SF x <> S754_nan.
Proof.
  intros H. unfold Prim2SF. rewrite H.
  destruct (is_zero x); [discriminate |].
  destruct (is_infinity x); [discriminate |].
  destruct (Z.frexp x) as [r e].
  destruct (shr_fexp prec emax (Uint63Axioms.to_Z (normfr_mantissa r)) (e - prec) loc_Exact)
    as [shr e'].
  destruct (shr_m shr); discriminate.
Qed.

Lemma ltb_key (x y : float) :
  is_nan x = false -> is_nan y = false ->
  ((x <? y) = true <-> lt3 (key (Prim2SF x)) (key (Prim2SF y))).
Proof.
  intros Hx Hy. rewrite ltb_spec.
  apply SFltb_key; now apply not_nan_Prim2SF.
Qed.

(** [<] on floats is asymmetric. *)
Lemma ltb_asym (x y : float) : (x <? y) = true -> (y <? x) = false.
Proof.
  intros H.
  assert (Hx : is_nan x = false).
  { destruct (is_nan x) eqn:E; [| reflexivity].
    rewrite ltb_spec, (F64Facts.is_nan_Prim2SF x E) in H. discriminate. }
  assert (Hy : is_nan y = false).
  { destruct (is_nan y) eqn:E; [| reflexivity].
    rewrite ltb_spec, (F64Facts.is_nan_Prim2SF y E) in H.
    unfold SFltb, SFcompare in H. destruct (Prim2SF x); discriminate. }
  apply (ltb_key x y Hx Hy) in H.
  destruct (y <? x) eqn:E; [| reflexivity].
  apply (ltb_key y x Hy Hx) in E. unfold lt3 in *. lia.
Qed.

(** On numbers that are not NaN, "not smaller" is transitive. *)
Lemma not_ltb_trans (x y z : float) :
  is_nan x = false -> is_nan y = false -> is_nan z = false ->
  (x <? y) = false -> (y <? z) = false -> (x <? z) = false.
Proof.
  intros Hx Hy Hz Hxy Hyz.
  destruct (x <? z) eqn:E; [| reflexivity].
  apply (ltb_key x z Hx Hz) in E.
  assert (Nxy : ~ lt3 (key (Prim2SF x)) (key (Prim2SF y))).
  { intros H. apply (ltb_key x y Hx Hy) in H. congruence. }
  assert (Nyz : ~ lt3 (key (Prim2SF y)) (key (Prim2SF z))).
  { intros H. apply (ltb_key y z Hy Hz) in H. congruence. }
  unfold lt3 in *. lia.
Qed.

End F64Order.

(* ================================================================== *)
(** * Stability of the sort, and slices of sorted lists *)

Module SortMore.

Import Seq SeqFacts.

Section Stable.
Context {A : Type} (before : A -> A -> bool).

(** The elements being sorted, on which [before] is a total preorder, and
    the order [pos] in which they stand in the input. *)
Variable P : A -> Prop.
Variable pos : A -> A -> Prop.

Hypothesis before_total :
  forall x y, P x -> P y -> before x y = true \/ before y x = true.
Hypothesis before_trans :
  forall x y z, P x -> P y -> P z ->
                before x y = true -> before y z = true -> before x z = true.

(** [x] is ranked in front of [y]: it may stay before it, and when the
    two are equivalent it stood before it in the input. *)
Definition ranked (x y : A) : Prop :=
  before x y = true /\ (before y x = true -> pos x y).

Lemma insert_ranked (x : A) (s : list A) :
  P x -> Forall P s -> Forall (pos x) s ->
  StronglySorted ranked s -> StronglySorted ranked (insert before x s).
Proof.
  intros Px HP Hpos Hs. induction Hs as [| y s Hs IH Hy]; simpl.
  - constructor; constructor.
  - inversion HP as [| ? ? Py HPs]; subst.
    inversion Hpos as [| ? ? Hxy Hposs]; subst.
    destruct (before x y) eqn:E.
    + constructor; [constructor; assumption |].
      constructor; [split; auto |].
      rewrite Forall_forall in *. intros z Hz. split; [| auto].
      apply (before_trans x y z); auto. now apply Hy.
    + constructor; [now apply IH |].
      rewrite Forall_forall in *. intros z Hz.
      apply (Permutation_in _ (insert_perm before x s)) in Hz.
      destruct Hz as [<- | Hz]; [| auto].
      split; [| congruence].
      destruct (before_total x y Px Py); congruence.
Qed.

Lemma sort_ranked (l : list A) :
  Forall P l -> StronglySorted pos l -> StronglySorted ranked (sort before l).
Proof.
  intros HP Hs. induction Hs as [| x l Hs IH Hx]; simpl; [constructor |].
  inversion HP as [| ? ? Px HPl]; subst.
  apply insert_ranked; auto.
  - rewrite Forall_forall in *. intros z Hz. apply HPl. now apply sort_In in Hz.
  - rewrite Forall_forall in *. intros z Hz. apply Hx. now apply sort_In in Hz.
Qed.

End Stable.

Lemma sorted_skipn {A : Type} (R : A -> A -> Prop) (n : nat) (l : list A) :
  StronglySorted R l -> StronglySorted R (skipn n l).
Proof.
  revert l. induction n as [| n IH]; intros l H; [exact H |].
  destruct l as [| x l]; [constructor |]. simpl. apply IH. now inversion H.
Qed.

Lemma sorted_firstn {A : Type} (R : A -> A -> Prop) (n : nat) (l : list A) :
  StronglySorted R l -> StronglySorted R (firstn n l).
Proof.
  revert l. induction n as [| n IH]; intros l H; [constructor |].
  destruct l as [| x l]; [constructor |]. simpl.
  inversion H as [| ? ? Hl Hx]; subst. constructor; [now apply IH |].
  rewrite Forall_forall in *. intros z Hz. apply Hx. eapply firstn_incl, Hz.
Qed.

Lemma sorted_slice {A : Type} (R : A -> A -> Prop) (l : list A) (lo hi : Z) :
  StronglySorted R l -> StronglySorted R (slice l lo hi).
Proof. intros H. unfold slice. now apply sorted_firstn, sorted_skipn. Qed.

Lemma combine_seq_sorted {A : Type} (l : list A) (k : nat) :
  StronglySorted (fun x y : nat * A => (fst x < fst y)%nat)
                 (combine (seq k (List.length l)) l).
Proof.
  revert k. induction l as [| a l IH]; intros k; simpl; constructor; [apply IH |].
  apply Forall_forall. intros [j b] Hj. apply combine_seq_In in Hj. simpl. lia.
Qed.

Lemma enumerate_sorted {A : Type} (l : list A) :
  StronglySorted (fun x y : nat * A => (fst x < fst y)%nat) (enumerate l).
Proof. apply combine_seq_sorted. Qed.

(** The slice [l[1:hi]] of a list that is not empty lies in its tail. *)
Lemma slice_from_1 {A : Type} (x : A) (l : list A) (hi : Z) (a : A) :
  In a (slice (x :: l) 1 hi) -> In a l.
Proof.
  unfold slice. intros H. apply firstn_incl in H.
  replace (Z.to_nat (slice_index (Z.of_nat (List.length (x :: l))) 1)) with 1%nat in H.
  - exact H.
  - unfold slice_index. change (1 <? 0) with false. cbn [List.length]. lia.
Qed.

Lemma slice_from_1_length {A : Type} (l : list A) (top_n : Z) :
  0 <= top_n -> l <> [] ->
  Z.of_nat (List.length (slice l 1 (top_n + 1)))
  = Z.min top_n (Z.of_nat (List.length l) - 1).
Proof.
  intros Htop Hne. unfold slice, slice_index.
  destruct l as [| x l]; [contradiction |].
  rewrite length_firstn, length_skipn.
  change (1 <? 0) with false.
  destruct (top_n + 1 <? 0) eqn:E1; [apply Z.ltb_lt in E1; lia |].
  cbn [List.length]. lia.
Qed.

End SortMore.

(* ================================================================== *)
(** * More on the recommender: how many, in which order, and the self-match *)

Module RecommendMore.

Import Sklearn Seq SeqFacts SklearnFacts SortMore Recommend RecommendSpec.
Local Open Scope float_scope.

(** [x] is listed before [y]: its score is not smaller, and with equal
    scores its index is the smaller one. *)
Definition ranks_before (x y : nat * float) : Prop :=
  (snd x <? snd y) = false
  /\ ((snd y <? snd x) = false -> (fst x < fst y)%nat).

Lemma sorted_impl {A : Type} (R S : A -> A -> Prop) (l : list A) :
  (forall x y, R x y -> S x y) -> StronglySorted R l -> StronglySorted S l.
Proof.
  intros H. induction 1 as [| x l Hs IH Hx]; constructor; [exact IH |].
  rewrite Forall_forall in *. auto.
Qed.

Lemma enumerate_scores_not_nan (row : list float) :
  Forall (fun s => is_nan s = false) row ->
  Forall (fun p : nat * float => is_nan (snd p) = false) (enumerate row).
Proof.
  intros H. rewrite Forall_forall in *. intros [i s] Hin.
  apply enumerate_In in Hin. apply nth_error_In in Hin. simpl. auto.
Qed.

Lemma sorted_scores_ranked (row : list float) :
  Forall (fun s => is_nan s = false) row ->
  StronglySorted ranks_before (sorted_by_score_desc (enumerate row)).
Proof.
  intros H. unfold sorted_by_score_desc.
  apply (sorted_impl
           (ranked score_before (fun x y : nat * float => (fst x < fst y)%nat))).
  { intros x y [H1 H2]. unfold score_before in *. split.
    - now apply negb_true_iff in H1.
    - intros E. apply H2. now rewrite E. }
  apply (sort_ranked score_before
           (fun p : nat * float => is_nan (snd p) = false)).
  - intros x y _ _. unfold score_before.
    destruct (snd x <? snd y) eqn:E; [right | now left].
    now rewrite (F64Order.ltb_asym _ _ E).
  - intros x y z Hx Hy Hz. unfold score_before. rewrite !negb_true_iff.
    now apply F64Order.not_ltb_trans.
  - now apply enumerate_scores_not_nan.
  - apply enumerate_sorted.
Qed.

(** X7: for a row of similarity scores without NaN, the pairs kept for a
    title are in ranking order: no pair is followed by one with a larger
    score, and of two pairs with equal scores the one with the smaller index
    comes first. *)
Theorem sim_scores_ranking
        (cosine_sim : matrix) (top_n : Z) (idx : nat)
        (row : list float) (scores : list (nat * float)) :
  nth_error cosine_sim idx = Some row ->
  Forall (fun s => is_nan s = false) row ->
  sim_scores cosine_sim top_n idx = OK scores ->
  StronglySorted ranks_before scores.
Proof.
  intros Hrow Hnan H. unfold sim_scores in H.
  apply subscript_ok in Hrow. rewrite Hrow in H. simpl in H.
  inversion H; subst scores. apply sorted_slice. now apply sorted_scores_ranked.
Qed.

Lemma sim_scores_ranking_witness :
  StronglySorted ranks_before [(3%nat, 0.5); (1%nat, 0.25); (2%nat, 0.25)].
Proof.
  apply (sim_scores_ranking
           [[1; 0.25; 0.25; 0.5]; [0.25; 1; 0; 0]; [0.25; 0; 1; 0]; [0.5; 0; 0; 1]]
           3 0 [1; 0.25; 0.25; 0.5]).
  - reflexivity.
  - repeat constructor.
  - reflexivity.
Defined.

(** The slice can also leave out a self-match that does not rank first:
    in row 1 below the self-match ranks last of four, and the slice [1:2]
    ends before it. *)
Example self_match_cut_off_at_the_end :
  sim_scores [[1; 1; 0; 0]; [1; 0.5; 0.9; 0.8]] 1 1 = OK [(2%nat, 0.9)].
Proof. vm_compute. reflexivity. Qed.

(** X8: the slice drops the self-match whenever it ranks first: if row
    [idx] has no NaN and the score of the title with itself is larger than
    the score with every title before it, and not smaller than the score
    with any title after it, then index [idx] is not among the pairs kept.
    (The condition is sufficient only, as the example above shows.) *)
Theorem self_match_skipped_when_first
        (cosine_sim : matrix) (top_n : Z) (idx : nat)
        (row : list float) (self : float) (scores : list (nat * float)) :
  nth_error cosine_sim idx = Some row ->
  Forall (fun s => is_nan s = false) row ->
  nth_error row idx = Some self ->
  (forall j t, nth_error row j = Some t -> (j < idx)%nat -> (t <? self) = true) ->
  (forall j t, nth_error row j = Some t -> (idx < j)%nat -> (self <? t) = false) ->
  sim_scores cosine_sim top_n idx = OK scores ->
  Forall (fun p => fst p <> idx) scores.
Proof.
  intros Hrow Hnan Hself Hlow Hhigh H. unfold sim_scores in H.
  apply subscript_ok in Hrow. rewrite Hrow in H. simpl in H.
  inversion H; subst scores; clear H.
  pose proof (sorted_scores_ranked row Hnan) as Hs.
  assert (Hin : In (idx, self) (sorted_by_score_desc (enumerate row))).
  { apply sort_In. eapply nth_error_In, enumerate_nth, Hself. }
  destruct (sorted_by_score_desc (enumerate row)) as [| [j t] tl] eqn:EL;
    [contradiction |].
  assert (Hj : nth_error row j = Some t).
  { apply enumerate_In. apply (sort_In score_before).
    unfold sorted_by_score_desc in EL. rewrite EL. now left. }
  inversion Hs as [| ? ? _ Hhead]; subst.
  apply Forall_forall. intros [i s] Hp Ei. simpl in Ei. subst i.
  apply slice_from_1 in Hp.
  assert (Hi : nth_error row idx = Some s).
  { apply enumerate_In. apply (sort_In score_before).
    unfold sorted_by_score_desc in EL. rewrite EL. now right. }
  assert (s = self) by congruence. subst s.
  rewrite Forall_forall in Hhead. destruct (Hhead _ Hp) as [H1 H2]. simpl in *.
  destruct (Nat.lt_trichotomy j idx) as [Hlt | [-> | Hgt]].
  - rewrite (Hlow j t Hj Hlt) in H1. discriminate.
  - assert (t = self) by congruence. subst t. specialize (H2 H1). lia.
  - specialize (H2 (Hhigh j t Hj Hgt)). lia.
Qed.

Lemma self_match_skipped_when_first_witness :
  Forall (fun p : nat * float => fst p <> 1%nat) [(0%nat, 0.5); (2%nat, 0)].
Proof.
  apply (self_match_skipped_when_first
           [[1; 0.5; 0]; [0.5; 1; 0]; [0; 0; 1]] 5 1 [0.5; 1; 0] 1).
  - reflexivity.
  - repeat constructor.
  - reflexivity.
  - intros [| [| j]] t Hj Hlt; [| lia | lia].
    inversion Hj; subst. reflexivity.
  - intros [| [| [| j]]] t Hj Hlt; try lia.
    + inversion Hj; subst. reflexivity.
    + destruct j; discriminate.
  - reflexivity.
Defined.

Section Vectorizer.

Variable analyzer : string -> list string.
Variable ln : float -> float.

Lemma sim_scores_length (X : matrix) (top_n : Z) (idx : nat)
      (scores : list (nat * float)) :
  0 <= top_n -> (idx < List.length X)%nat ->
  sim_scores (cosine_similarity X X) top_n idx = OK scores ->
  Z.of_nat (List.length scores) = Z.min top_n (Z.of_nat (List.length X) - 1).
Proof.
  intros Htop Hidx H. unfold sim_scores in H.
  destruct (subscript (cosine_similarity X X) idx) as [row |] eqn:Erow;
    simpl in H; [| discriminate].
  inversion H; subst scores; clear H.
  apply subscript_ok in Erow.
  pose proof (cosine_similarity_row_length _ _ _ Erow) as Hlen.
  assert (HL : List.length (sorted_by_score_desc (enumerate row)) = List.length X).
  { unfold sorted_by_score_desc.
    rewrite (Permutation_length (sort_perm score_before _)), enumerate_length.
    exact Hlen. }
  rewrite slice_from_1_length; [now rewrite HL | exact Htop |].
  intros E. rewrite E in HL. simpl in HL. lia.
Qed.

(** X9: with [top_n >= 0], every entry that [recommend_books] returns for
    [n] records lists exactly [min(top_n, n - 1)] titles: [top_n] of them
    when there are enough other records, all the others when there are
    fewer. *)
Theorem recommend_books_recs_count
        (books : list book) (top_n : Z) (out : list recommendation) :
  0 <= top_n ->
  recommend_books analyzer ln books top_n = OK out ->
  Forall (fun e => Z.of_nat (List.length (recs e))
                   = Z.min top_n (Z.of_nat (List.length books) - 1)) out.
Proof.
  intros Htop H. unfold recommend_books in H.
  destruct (fit_transform analyzer ln (map title books)) as [X |] eqn:EX;
    simpl in H; [| discriminate].
  pose proof (fit_transform_length analyzer ln _ _ EX) as Hlen.
  rewrite length_map in Hlen.
  apply mapM_Forall2 in H. apply Forall_forall. intros e He.
  destruct (Forall2_In_right _ _ _ _ H He) as [[idx t] [Hit Hr]].
  apply enumerate_In in Hit.
  assert (Hidx : (idx < List.length X)%nat).
  { rewrite Hlen, <- (length_map title). apply nth_error_Some. congruence. }
  unfold recommend_entry in Hr.
  destruct (sim_scores (cosine_similarity X X) top_n idx) as [scores |] eqn:Es;
    simpl in Hr; [| discriminate].
  destruct (mapM (fun i => subscript (map title books) (fst i)) scores)
    as [rs |] eqn:Ers; simpl in Hr; [| discriminate].
  inversion Hr; subst e; clear Hr. simpl.
  apply mapM_Forall2 in Ers. rewrite <- (Forall2_length Ers), <- Hlen.
  exact (sim_scores_length X top_n idx scores Htop Hidx Es).
Qed.

End Vectorizer.

Lemma recommend_books_recs_count_witness :
  Forall (fun e => Z.of_nat (List.length (recs e))
                   = Z.min 5 (Z.of_nat (List.length [sapiens; it_novel]) - 1))
         [Recommendation "Sapiens" ["It"%string];
          Recommendation "It" ["It"%string]].
Proof.
  apply (recommend_books_recs_count Sample.analyzer Sample.ln [sapiens; it_novel] 5).
  - lia.
  - vm_compute. reflexivity.
Defined.

End RecommendMore.

(* ================================================================== *)
(** * More on the aggregator *)

Module AnalyzeMore.

Import Seq SeqFacts Analyze AnalyzeSpec.
Local Open Scope float_scope.

(** ** Records without rating *)

Lemma ratings_of_none (books : list book) :
  (forall b, In b books -> isna (rating b) = true) -> ratings_of books = [].
Proof.
  intros H. rewrite ratings_of_present. unfold present_ratings.
  induction books as [| b books IH]; simpl; [reflexivity |].
  pose proof (H b (or_introl eq_refl)) as Hb.
  destruct (rating b); [discriminate |]. simpl.
  apply IH. intros b' Hb'. apply H. now right.
Qed.

(** X10: when no record has a rating (in particular for no record at
    all) [analyze_sentiments] raises nothing: it reports a count of 0, an
    empty distribution, and NaN as average, highest and lowest rating. *)
Theorem analyze_without_ratings (books : list book) :
  (forall b, In b books -> isna (rating b) = true) ->
  analyze_sentiments books = Stats nan RatingNaN RatingNaN 0 [].
Proof.
  intros H. unfold analyze_sentiments. now rewrite (ratings_of_none books H).
Qed.

Lemma analyze_without_ratings_witness :
  analyze_sentiments RoutesSpec.unrated_books = Stats nan RatingNaN RatingNaN 0 []
  /\ analyze_sentiments [] = Stats nan RatingNaN RatingNaN 0 [].
Proof.
  split; apply analyze_without_ratings.
  - intros b [<- | [<- | []]]; reflexivity.
  - intros b [].
Defined.

(** ** The order of the records does not matter *)

Lemma sum_of_perm (l m : list Z) : Permutation l m -> sum_of l = sum_of m.
Proof.
  unfold sum_of. induction 1; simpl; lia.
Qed.

Lemma series_max_perm (l m : list Z) :
  Permutation l m -> series_max l = series_max m.
Proof.
  intros H. destruct l as [| x l], m as [| y m]; [reflexivity | | |].
  - apply Permutation_nil in H. discriminate.
  - apply Permutation_sym, Permutation_nil in H. discriminate.
  - simpl. f_equal.
    destruct (fold_max_spec l x) as [Hin1 Hge1].
    destruct (fold_max_spec m y) as [Hin2 Hge2].
    apply (Permutation_in _ H) in Hin1.
    apply (Permutation_in _ (Permutation_sym H)) in Hin2.
    specialize (Hge1 _ Hin2). specialize (Hge2 _ Hin1). lia.
Qed.

Lemma series_min_perm (l m : list Z) :
  Permutation l m -> series_min l = series_min m.
Proof.
  intros H. destruct l as [| x l], m as [| y m]; [reflexivity | | |].
  - apply Permutation_nil in H. discriminate.
  - apply Permutation_sym, Permutation_nil in H. discriminate.
  - simpl. f_equal.
    destruct (fold_min_spec l x) as [Hin1 Hle1].
    destruct (fold_min_spec m y) as [Hin2 Hle2].
    apply (Permutation_in _ H) in Hin1.
    apply (Permutation_in _ (Permutation_sym H)) in Hin2.
    specialize (Hle1 _ Hin2). specialize (Hle2 _ Hin1). lia.
Qed.

Lemma mean_perm (l m : list Z) :
  Permutation l m ->
  Forall on_scale l -> (Z.of_nat (List.length l) <= max_checked)%Z ->
  mean l = mean m.
Proof.
  intros H Hl Hn.
  destruct l as [| x l], m as [| y m]; [reflexivity | | |].
  - apply Permutation_nil in H. discriminate.
  - apply Permutation_sym, Permutation_nil in H. discriminate.
  - assert (Hm : Forall on_scale (y :: m)) by apply (Permutation_Forall H Hl).
    assert (Hk : (Z.of_nat (List.length (y :: m)) <= max_checked)%Z)
      by now rewrite <- (Permutation_length H).
    rewrite (mean_on_scale (x :: l)), (mean_on_scale (y :: m));
      try discriminate; try assumption.
    now rewrite (sum_of_perm _ _ H), (Permutation_length H).
Qed.

(** Two lists of items with strictly ascending keys and the same items
    are the same list. *)
Lemma ascending_unique (s t : list (Z * Z)) :
  StronglySorted Z.lt (map fst s) -> StronglySorted Z.lt (map fst t) ->
  (forall x, In x s <-> In x t) -> s = t.
Proof.
  revert t. induction s as [| a s IH]; intros [| b t] Hs Ht Hst.
  - reflexivity.
  - exfalso. apply (Hst b). now left.
  - exfalso. apply (Hst a). now left.
  - simpl in Hs, Ht.
    inversion Hs as [| ? ? Hs' Ha]; subst. inversion Ht as [| ? ? Ht' Hb]; subst.
    rewrite Forall_forall in Ha, Hb.
    assert (Hab : a = b).
    { destruct (proj1 (Hst a) (or_introl eq_refl)) as [E | Hin]; [now symmetry |].
      destruct (proj2 (Hst b) (or_introl eq_refl)) as [E | Hin']; [exact E |].
      specialize (Ha (fst b) (in_map fst _ _ Hin')).
      specialize (Hb (fst a) (in_map fst _ _ Hin)). lia. }
    subst b. f_equal. apply IH; try assumption.
    intros x. split; intros Hx.
    + destruct (proj1 (Hst x) (or_intror Hx)) as [E | Hin]; [| exact Hin].
      subst x. specialize (Ha (fst a) (in_map fst _ _ Hx)). lia.
    + destruct (proj2 (Hst x) (or_intror Hx)) as [E | Hin]; [| exact Hin].
      subst x. specialize (Hb (fst a) (in_map fst _ _ Hx)). lia.
Qed.

Lemma distribution_perm_eq (l m : list Z) :
  Permutation l m ->
  sort_index (value_counts l) = sort_index (value_counts m).
Proof.
  intros H. apply ascending_unique; try apply distribution_keys_ascending.
  intros [r c]. rewrite !distribution_In.
  rewrite (Permutation_count_occ Z.eq_dec l m) in H. rewrite (H r).
  split; intros [Hin E]; (split; [| exact E]).
  - apply (count_occ_In Z.eq_dec). apply (count_occ_In Z.eq_dec) in Hin.
    now rewrite <- H.
  - apply (count_occ_In Z.eq_dec). apply (count_occ_In Z.eq_dec) in Hin.
    now rewrite H.
Qed.

(** X11: for ratings on the scale 1 to 5, up to 100 of them, the
    statistics depend on the present ratings only, and not on their order:
    two record lists whose present ratings are the same up to order (their
    titles, prices and unrated records may differ) get the same
    statistics. *)
Theorem analyze_order_irrelevant (books1 books2 : list book) :
  Permutation (present_ratings books1) (present_ratings books2) ->
  Forall on_scale (present_ratings books1) ->
  (Z.of_nat (List.length (present_ratings books1)) <= max_checked)%Z ->
  analyze_sentiments books1 = analyze_sentiments books2.
Proof.
  intros H Hscale Hn. unfold analyze_sentiments. rewrite !ratings_of_present.
  rewrite (mean_perm _ _ H Hscale Hn),
    (series_max_perm _ _ H), (series_min_perm _ _ H),
    (Permutation_length H), (distribution_perm_eq _ _ H).
  reflexivity.
Qed.

Lemma analyze_order_irrelevant_witness :
  analyze_sentiments example_books
  = analyze_sentiments
      [Sample.a_book "Emma" 9.5 RatingNaN; Sample.a_book "Dune" 12 (Rating 5);
       Sample.a_book "Ulysses" 8.25 (Rating 3); Sample.a_book "Walden" 7 (Rating 4);
       Sample.a_book "Beloved" 11 (Rating 4)].
Proof.
  apply analyze_order_irrelevant.
  - simpl. apply perm_swap.
  - repeat constructor; unfold on_scale; lia.
  - unfold max_checked. simpl. lia.
Defined.

(** ** The histogram *)

Lemma count_sum_cons (ks l : list Z) (x : Z) :
  list_sum (map (count_occ Z.eq_dec (x :: l)) ks)
  = (count_occ Z.eq_dec ks x + list_sum (map (count_occ Z.eq_dec l) ks))%nat.
Proof.
  assert (Hcons : forall a m, list_sum (a :: m) = (a + list_sum m)%nat)
    by reflexivity.
  induction ks as [| k ks IH]; [reflexivity |].
  rewrite !map_cons, !Hcons, IH. cbn [count_occ].
  destruct (Z.eq_dec x k), (Z.eq_dec k x); congruence || lia.
Qed.

Lemma count_sum (ks l : list Z) :
  NoDup ks -> (forall x, In x l -> In x ks) ->
  list_sum (map (count_occ Z.eq_dec l) ks) = List.length l.
Proof.
  intros Hnd. induction l as [| x l IH]; intros Hin.
  - simpl. clear. induction ks as [| k ks IH]; simpl; [reflexivity | exact IH].
  - rewrite count_sum_cons, IH by (intros y Hy; apply Hin; now right).
    assert (Hx : count_occ Z.eq_dec ks x = 1%nat).
    { apply NoDup_count_occ'; [exact Hnd | apply Hin; now left]. }
    rewrite Hx. reflexivity.
Qed.

Lemma counted_sum (l : list Z) :
  sum_of (map snd (counted l)) = Z.of_nat (List.length l).
Proof.
  unfold counted. rewrite map_map. simpl.
  rewrite <- (count_sum (nodup Z.eq_dec l) l);
    [| apply NoDup_nodup | intros x Hx; now apply nodup_In].
  unfold sum_of. induction (nodup Z.eq_dec l) as [| k ks IH]; simpl; [reflexivity |].
  rewrite IH. lia.
Qed.

(** X12: the distribution is a histogram of the present ratings: each of
    its counts is at least 1, and the counts add up to [count]. *)
Theorem distribution_counts_add_up (books : list book) :
  Forall (fun item => 1 <= snd item)%Z
         (rating_distribution (analyze_sentiments books))
  /\ sum_of (map snd (rating_distribution (analyze_sentiments books)))
     = count (analyze_sentiments books).
Proof.
  unfold analyze_sentiments. simpl. split.
  - apply Forall_forall. intros [r c] H. apply distribution_In in H.
    destruct H as [Hin ->]. simpl.
    apply (count_occ_In Z.eq_dec) in Hin. lia.
  - rewrite (sum_of_perm _ _ (Permutation_map snd (distribution_perm _))).
    apply counted_sum.
Qed.

End AnalyzeMore.

(* ================================================================== *)
(** * More on the routes *)

Module RoutesMore.

Import Seq SeqFacts Routes RoutesSpec Recommend RecommendSpec.
Local Open Scope float_scope.

(** ** The recommendations shown on a card *)

(** Line 143 of the page template: [title_to_recs.get(book.title, [])]. *)
Definition title_to_recs_get (d : list (string * list string)) (k : string)
  : list string :=
  match find (fun item => String.eqb (fst item) k) d with
  | Some item => snd item
  | None => []
  end.

Lemma get_set (d : list (string * list string)) (k k' : string) (v : list string) :
  title_to_recs_get (dict_set d k v) k'
  = if String.eqb k k' then v else title_to_recs_get d k'.
Proof.
  unfold title_to_recs_get.
  induction d as [| [k0 v0] d IH]; simpl.
  - now destruct (String.eqb k k').
  - destruct (String.eqb_spec k0 k) as [-> | Hne]; simpl.
    + now destruct (String.eqb k k').
    + destruct (String.eqb_spec k0 k') as [-> | Hne']; simpl.
      * destruct (String.eqb_spec k k') as [-> | _]; [contradiction | reflexivity].
      * exact IH.
Qed.

Lemma get_fold (rs : list recommendation) (d : list (string * list string))
      (t : string) :
  (forall r, In r rs -> rec_title r <> t) ->
  title_to_recs_get
    (fold_left (fun d r => dict_set d (rec_title r) (recs r)) rs d) t
  = title_to_recs_get d t.
Proof.
  revert d. induction rs as [| r rs IH]; intros d H; simpl; [reflexivity |].
  rewrite IH by (intros r' Hr'; apply H; now right).
  rewrite get_set.
  destruct (String.eqb_spec (rec_title r) t) as [E | _]; [| reflexivity].
  exfalso. apply (H r); [now left | exact E].
Qed.

(** X13: the dict built from the recommendations answers a title with
    the list of the last entry that has this title (an earlier entry with
    the same title is overwritten), and a title of no entry with the empty
    list. *)
Theorem title_to_recs_last_entry_wins
        (earlier later : list recommendation) (r : recommendation) (t : string) :
  ((forall r', In r' later -> rec_title r' <> rec_title r) ->
   title_to_recs_get (title_to_recs_of (earlier ++ r :: later)) (rec_title r)
   = recs r)
  /\ ((forall r', In r' (earlier ++ later) -> rec_title r' <> t) ->
      title_to_recs_get (title_to_recs_of (earlier ++ later)) t = []).
Proof.
  unfold title_to_recs_of. split.
  - intros H. rewrite fold_left_app. simpl.
    rewrite get_fold by exact H. rewrite get_set.
    now rewrite String.eqb_refl.
  - intros H. now rewrite get_fold by exact H.
Qed.

Lemma title_to_recs_last_entry_wins_witness :
  title_to_recs_get
    (title_to_recs_of
       ([Recommendation "Emma" ["Dune"%string]]
          ++ Recommendation "Emma" ["Ulysses"%string]
          :: [Recommendation "Dune" ["Emma"%string]]))
    "Emma"
  = ["Ulysses"%string]
  /\ title_to_recs_get
       (title_to_recs_of
          ([Recommendation "Emma" ["Dune"%string]]
             ++ [Recommendation "Dune" ["Emma"%string]]))
       "Walden"
     = [].
Proof.
  split.
  - apply (title_to_recs_last_entry_wins
             [Recommendation "Emma" ["Dune"%string]]
             [Recommendation "Dune" ["Emma"%string]]
             (Recommendation "Emma" ["Ulysses"%string]) "Walden").
    intros r' [<- | []]. discriminate.
  - apply (title_to_recs_last_entry_wins
             [Recommendation "Emma" ["Dune"%string]]
             [Recommendation "Dune" ["Emma"%string]]
             (Recommendation "Emma" ["Ulysses"%string]) "Walden").
    intros r' [<- | [<- | []]]; discriminate.
Defined.

(** ** [index] *)

Section IndexRoute.

Variable analyzer : string -> list string.
Variable ln : float -> float.

Lemma vocabulary_of_no_terms (titles : list string) :
  (forall t, In t titles -> analyzer t = []) ->
  vocabulary (map analyzer titles) = [].
Proof.
  intros H. unfold vocabulary.
  assert (E : List.concat (map analyzer titles) = []).
  { induction titles as [| t titles IH]; simpl; [reflexivity |].
    rewrite (H t) by now left. apply IH. intros u Hu. apply H. now right. }
  now rewrite E.
Qed.

Lemma recommend_books_no_terms (books : list book) (top_n : Z) :
  (forall b, In b books -> analyzer (title b) = []) ->
  recommend_books analyzer ln books top_n = Raise ValueError.
Proof.
  intros H. unfold recommend_books, fit_transform.
  rewrite vocabulary_of_no_terms; [reflexivity |].
  intros t Ht. apply in_map_iff in Ht. destruct Ht as [b [<- Hb]]. now apply H.
Qed.

(** X14: [index] fails with the [ValueError] of the vectorizer when
    records were fetched but none of their titles has a term; the guard
    [if books] lets these records through to [recommend_books], after the
    call of [analyze_sentiments]. *)
Theorem index_raises_without_terms (get : Scrape.http) (b : book) (books : list book) :
  Scrape.scrape_books_to_scrape get 2 = OK (b :: books) ->
  (forall b', In b' (b :: books) -> analyzer (title b') = []) ->
  index analyzer ln get
  = (Raise ValueError, [CallAnalyze (b :: books); CallRecommend (b :: books)]).
Proof.
  intros Hs Hno. unfold index. rewrite Hs. simpl.
  now rewrite (recommend_books_no_terms (b :: books) 5 Hno).
Qed.

Lemma recommend_books_total (books : list book) (top_n : Z) :
  (exists b, In b books /\ analyzer (title b) <> []) ->
  exists out, recommend_books analyzer ln books top_n = OK out.
Proof.
  intros [b0 [Hb0 Hne]].
  destruct (fit_transform_total analyzer ln (map title books)) as [X EX].
  { exists (title b0). split; [now apply in_map | exact Hne]. }
  pose proof (fit_transform_length analyzer ln _ _ EX) as Hlen.
  destruct (mapM_total
              (recommend_entry (map title books)
                 (Sklearn.cosine_similarity X X) top_n)
              (enumerate (map title books))) as [out Eout].
  { intros it Hit. now apply recommend_entry_total. }
  exists out. unfold recommend_books. rewrite EX. exact Eout.
Qed.

(** X15: when the fetch succeeds and some title has a term, [index]
    renders: it calls [analyze_sentiments] and then [recommend_books], each
    once and on all the fetched records, and hands the template the fetched
    records, their statistics, and the ratings of the distribution with
    their counts as the labels and values of the chart. *)
Theorem index_renders (get : Scrape.http) (books : list book) :
  Scrape.scrape_books_to_scrape get 2 = OK books ->
  (exists b, In b books /\ analyzer (title b) <> []) ->
  exists page,
    index analyzer ln get = (OK page, [CallAnalyze books; CallRecommend books])
    /\ page_books page = books
    /\ page_stats page = Some (Analyze.analyze_sentiments books)
    /\ chart_labels page
       = map fst (rating_distribution (Analyze.analyze_sentiments books))
    /\ chart_values page
       = map snd (rating_distribution (Analyze.analyze_sentiments books)).
Proof.
  intros Hs Hterm.
  destruct (recommend_books_total books 5 Hterm) as [out Eout].
  unfold index. rewrite Hs. simpl.
  destruct books as [| b books]; [destruct Hterm as [? [[] _]] |].
  simpl. rewrite Eout. simpl.
  eexists. split; [reflexivity |]. repeat split.
Qed.

End IndexRoute.

(** A server whose only book is titled "It". *)
Definition it_get : Scrape.http :=
  fun p =>
    if (p =? 1)%Z
    then OK (Scrape.Response 200
               [Scrape.Article (OK "It"%string) (OK "£25.01"%string)
                  (OK ["star-rating"; "Three"]%string)
                  (OK "../media/cache/it.jpg"%string)])
    else OK (Scrape.Response 404 []).

(** The record scraped from it. *)
Definition it_record : book :=
  Book "It" 25.01 (Rating 3) "BooksToScrape"
       "http://books.toscrape.com/media/cache/it.jpg".

Lemma index_raises_without_terms_witness :
  index Sample.analyzer Sample.ln it_get
  = (Raise ValueError, [CallAnalyze [it_record]; CallRecommend [it_record]]).
Proof.
  apply (index_raises_without_terms Sample.analyzer Sample.ln it_get).
  - vm_compute. reflexivity.
  - intros b' [<- | []]. reflexivity.
Defined.

Lemma index_renders_witness :
  exists page,
    index Sample.analyzer Sample.ln ScrapeSpec.sample_get
    = (OK page, [CallAnalyze ScrapeSpec.sample_books;
                 CallRecommend ScrapeSpec.sample_books])
    /\ page_books page = ScrapeSpec.sample_books
    /\ page_stats page = Some (Analyze.analyze_sentiments ScrapeSpec.sample_books)
    /\ chart_labels page
       = map fst (rating_distribution
                    (Analyze.analyze_sentiments ScrapeSpec.sample_books))
    /\ chart_values page
       = map snd (rating_distribution
                    (Analyze.analyze_sentiments ScrapeSpec.sample_books)).
Proof.
  apply (index_renders Sample.analyzer Sample.ln ScrapeSpec.sample_get).
  - exact ScrapeSpec.scrape_sample.
  - eexists. split; [now left | discriminate].
Defined.

(** ** [order] *)

(** X16: the total of an order reads the submitted titles as a set: two
    selections with the same titles, in any order and with any repetitions,
    give the same total. *)
Theorem order_total_selection_as_set (R : list book) (S S' : list string) :
  (forall t, In t S <-> In t S') -> order_total R S = order_total R S'.
Proof. apply order_total_same_selection. Qed.

Lemma order_total_selection_as_set_witness :
  order_total priced_and_unpriced ["It"; "Sapiens"; "It"]%string
  = order_total priced_and_unpriced ["Sapiens"; "It"]%string.
Proof.
  apply order_total_selection_as_set. intros t. simpl. tauto.
Defined.

Lemma sum_selected_skip (R : list book) (S : list string) (acc : float) :
  (forall b, In b R -> ~ In (title b) S) -> sum_selected acc R S = acc.
Proof.
  revert acc. induction R as [| r R IH]; intros acc H; simpl; [reflexivity |].
  destruct (in_dec string_dec (title r) S) as [Hin | _].
  - exfalso. apply (H r); [now left | exact Hin].
  - apply IH. intros b Hb. apply H. now right.
Qed.

(** X17: titles that no fetched record has add nothing: when none of the
    records has a selected title the total is 0, and the records whose
    title is not selected can be left out without changing the total. *)
Theorem order_total_ignores_unselected (R : list book) (S : list string) :
  ((forall b, In b R -> ~ In (title b) S) -> order_total R S = 0)
  /\ order_total (filter (fun b => if in_dec string_dec (title b) S
                                   then true else false) R) S
     = order_total R S.
Proof.
  split.
  - intros H. unfold order_total, F64.sum. rewrite fold_selected.
    now apply sum_selected_skip.
  - unfold order_total. f_equal. f_equal.
    induction R as [| r R IH]; simpl; [reflexivity |].
    destruct (in_dec string_dec (title r) S) as [Hin | Hout]; simpl.
    + apply selected_In in Hin. rewrite Hin. now rewrite IH.
    + destruct (existsb (String.eqb (title r)) S) eqn:E; [| exact IH].
      apply selected_In in E. contradiction.
Qed.

Lemma order_total_ignores_unselected_witness :
  order_total priced_and_unpriced ["Emma"; "Dune"]%string = 0.
Proof.
  destruct (order_total_ignores_unselected
              priced_and_unpriced ["Emma"; "Dune"]%string) as [H _].
  apply H. clear H. intros b [<- | [<- | []]]; simpl; intros [H | [H | []]]; discriminate.
Defined.

End RoutesMore.

(* ================================================================== *)
(** * The pipeline end to end *)

Module Pipeline.

Import Scrape ScrapeSpec ScrapeMore Analyze AnalyzeSpec.

(** ** Only the requested pages matter *)

Lemma scrape_pages_ext (get get' : http) (todo : list Z) (books : list book) :
  (forall p, In p todo -> get p = get' p) ->
  scrape_pages get todo books = scrape_pages get' todo books.
Proof.
  revert books. induction todo as [| q todo IH]; intros books H; simpl;
    [reflexivity |].
  rewrite <- (H q) by now left.
  destruct (get q) as [res |]; simpl; [| reflexivity].
  assert (Hrest : forall bs, scrape_pages get todo bs = scrape_pages get' todo bs)
    by (intros bs; apply IH; intros p Hp; apply H; now right).
  destruct (status_code res =? 200); [| apply Hrest].
  destruct (extract_articles (product_pods res) books); simpl;
    [apply Hrest | reflexivity].
Qed.

(** X18: [scrape_books_to_scrape] requests the pages 1 to [pages] and no
    other: two servers that answer these pages alike give the same outcome,
    whatever they hold on other pages. *)
Theorem scrape_reads_requested_pages_only (get get' : http) (pages : Z) :
  (forall p, 1 <= p <= pages -> get p = get' p) ->
  scrape_books_to_scrape get pages = scrape_books_to_scrape get' pages.
Proof.
  intros H. unfold scrape_books_to_scrape. apply scrape_pages_ext.
  intros p Hp. apply In_range in Hp. apply H. lia.
Qed.

Lemma scrape_reads_requested_pages_only_witness :
  scrape_books_to_scrape (fun _ => sample_get 2) 1
  = scrape_books_to_scrape timeout_get 1.
Proof.
  apply (scrape_reads_requested_pages_only (fun _ => sample_get 2) timeout_get 1).
  intros p Hp. assert (p = 1) by lia. subst p. reflexivity.
Defined.

(** ** The chart of scraped records *)

Lemma ascending_bounded_length (l : list Z) (a b : Z) :
  StronglySorted Z.lt l -> Forall (fun k => a <= k <= b) l ->
  Z.of_nat (List.length l) <= Z.max 0 (b - a + 1).
Proof.
  intros Hs. revert a. induction Hs as [| k l Hs IH Hk]; intros a Hb; simpl List.length.
  - lia.
  - inversion Hb as [| ? ? Hka Hl]; subst.
    assert (Hl' : Forall (fun j => k + 1 <= j <= b) l).
    { rewrite Forall_forall in *. intros j Hj.
      specialize (Hk j Hj). specialize (Hl j Hj). lia. }
    specialize (IH (k + 1) Hl'). lia.
Qed.

Lemma present_ratings_range (books : list book) :
  Forall well_formed books ->
  Forall (fun n => 1 <= n <= 5) (present_ratings books).
Proof.
  intros H. apply Forall_forall. intros n Hn.
  apply present_ratings_In in Hn. destruct Hn as [b [Hb E]].
  rewrite Forall_forall in H. destruct (H b Hb) as (_ & Hr & _).
  destruct Hr as [Hr | [m [Hr Hm]]]; congruence || (rewrite Hr in E; inversion E; lia).
Qed.

Lemma scraped_well_formed (get : http) (pages : Z) (books : list book) :
  scrape_books_to_scrape get pages = OK books -> Forall well_formed books.
Proof.
  intros H. apply Forall_forall. intros b Hb.
  destruct (scrape_provenance get pages books b H Hb)
    as (p & res & a & _ & _ & _ & _ & Ha).
  eapply extract_book_well_formed, Ha.
Qed.

(** X19: the statistics of scraped records stay within the rating scale:
    the keys of the distribution are ratings from 1 to 5, so the chart has
    at most five bars, and no more records are counted than were
    scraped. *)
Theorem scraped_distribution_within_scale
        (get : http) (pages : Z) (books : list book) :
  scrape_books_to_scrape get pages = OK books ->
  Forall (fun item => 1 <= fst item <= 5)
         (rating_distribution (analyze_sentiments books))
  /\ (List.length (rating_distribution (analyze_sentiments books)) <= 5)%nat
  /\ count (analyze_sentiments books) <= Z.of_nat (List.length books).
Proof.
  intros H. pose proof (scraped_well_formed get pages books H) as Hwf.
  pose proof (present_ratings_range books Hwf) as Hrange.
  unfold analyze_sentiments. simpl. rewrite ratings_of_present.
  assert (Hkeys : Forall (fun k => 1 <= k <= 5)
                    (map fst (sort_index (value_counts (present_ratings books))))).
  { apply Forall_forall. intros k Hk. apply in_map_iff in Hk.
    destruct Hk as [[r c] [<- Hrc]]. apply distribution_In in Hrc.
    rewrite Forall_forall in Hrange. apply Hrange, Hrc. }
  split; [| split].
  - apply Forall_forall. intros item Hitem.
    rewrite Forall_forall in Hkeys. apply Hkeys. now apply in_map.
  - pose proof (ascending_bounded_length _ 1 5
                  (distribution_keys_ascending (present_ratings books)) Hkeys) as Hlen.
    rewrite length_map in Hlen. lia.
  - unfold present_ratings. clear. induction books as [| b books IH]; simpl; [lia |].
    rewrite length_app. destruct (rating b); simpl List.length; lia.
Qed.

Lemma scraped_distribution_within_scale_witness :
  Forall (fun item => 1 <= fst item <= 5)
         (rating_distribution (analyze_sentiments sample_books))
  /\ (List.length (rating_distribution (analyze_sentiments sample_books)) <= 5)%nat
  /\ count (analyze_sentiments sample_books) <= Z.of_nat (List.length sample_books).
Proof.
  apply (scraped_distribution_within_scale sample_get 2). exact scrape_sample.
Defined.

End Pipeline.
